(** * CBDB / CHGIS tool servers: a shallow embedding and its properties

    The repository holds three modules ([cbdb_addr], [cbdb_addr_person] and
    [chgis]), each registering tool functions that build one HTTP GET request,
    await the response and return the decoded JSON body, or a dictionary
    [{"error": message}] when something was raised on the way.

    The embedding has three layers:
    - [Py]: the fragment of Python the tools run on (JSON-shaped values,
      dictionaries in insertion order, slicing, truthiness, exceptions, and
      [json.dumps]);
    - [httpx]: the client calls the tools make, as a state-and-exception monad
      over a world that answers requests and records them;
    - one module per source file, with the tool functions as they are written.
*)

From Stdlib Require Import ZArith List String Ascii Bool Lia.
From Stdlib Require Import Numbers.DecimalString.
Import ListNotations.

Open Scope string_scope.
Open Scope Z_scope.

Set Warnings "-register-all".

(* ================================================================== *)
(** ** Python values and operations *)
(* ================================================================== *)

Module Py.

(** What [response.json()] can return, and what the tools build themselves.
    A [float] is identified by its [repr] (which Python guarantees to round
    trip); a [dict] keeps its items in insertion order, as Python's does.
    [str] is a sequence of characters, one [ascii] per code point. *)
Inductive value : Type :=
| VNone
| VBool (b : bool)
| VInt (n : Z)
| VFloat (repr : string)
| VStr (s : string)
| VList (items : list value)
| VDict (items : list (string * value)).

Definition dict := list (string * value).

(** [k in d] and [d.get(k)] for a dictionary. *)
Fixpoint dict_get (d : dict) (k : string) : option value :=
  match d with
  | [] => None
  | (k', v) :: rest => if String.eqb k' k then Some v else dict_get rest k
  end.

Definition dict_has (d : dict) (k : string) : bool :=
  match dict_get d k with Some _ => true | None => false end.

(** [d[k] = v]: an existing key keeps its position, a new one goes last. *)
Fixpoint dict_set (d : dict) (k : string) (v : value) : dict :=
  match d with
  | [] => [(k, v)]
  | (k', v') :: rest =>
      if String.eqb k' k then (k', v) :: rest else (k', v') :: dict_set rest k v
  end.

Definition dict_keys (d : dict) : list string := map fst d.

(** [str(n)] for an [int]. *)
Definition str_int (n : Z) : string := NilZero.string_of_int (Z.to_int n).

(** [needle in haystack] for two strings. *)
Fixpoint str_contains (needle haystack : string) : bool :=
  if String.prefix needle haystack then true
  else match haystack with
       | EmptyString => false
       | String _ rest => str_contains needle rest
       end.

(** Truth value of an object, as [if x:] tests it. *)
Definition truthy (v : value) : bool :=
  match v with
  | VNone => false
  | VBool b => b
  | VInt n => negb (n =? 0)
  | VFloat r => negb (String.eqb r "0.0" || String.eqb r "-0.0")
  | VStr s => negb (String.eqb s EmptyString)
  | VList l => match l with [] => false | _ => true end
  | VDict d => match d with [] => false | _ => true end
  end.

(** Bounds of [seq[lo:hi]] after Python's adjustment: a negative bound counts
    from the end, and both are clamped to [0 .. len]. *)
Definition adjust_index (len i : Z) : Z :=
  if i <? 0 then Z.max 0 (i + len) else Z.min i len.

Definition slice_list {A : Type} (l : list A) (lo hi : Z) : list A :=
  let len := Z.of_nat (List.length l) in
  let lo' := adjust_index len lo in
  let hi' := adjust_index len hi in
  firstn (Z.to_nat (hi' - lo')) (skipn (Z.to_nat lo') l).

Definition slice_str (s : string) (lo hi : Z) : string :=
  let len := Z.of_nat (String.length s) in
  let lo' := adjust_index len lo in
  let hi' := adjust_index len hi in
  String.substring (Z.to_nat lo') (Z.to_nat (hi' - lo')) s.

(** *** Exceptions *)

(** What the interpreter itself raises on the operations the tools use. *)
Inductive fault : Type :=
| NotIterable (container : value)      (* [k in x], x not a container *)
| BadSubscript (container : value)     (* [x[k]] with a str key, x not a dict *)
| KeyMissing (key : string)            (* [d[k]], k not in d *)
| NoLen (x : value)                    (* [len(x)] *)
| NotSliceable (x : value)             (* [x[a:b]], x not a sequence *)
| NoItemAssignment (x : value)         (* [x[k] = v], x not a dict *)
| NoAttribute (name : string)          (* [e.name], e without that attribute *)
| DivisionByZero.                      (* [a // 0] *)

(** Every [Exception] a tool can meet: httpx's two families (neither is a
    subclass of the other), [ValueError] (which [json.JSONDecodeError]
    inherits from), the interpreter's own, and any other. *)
Inductive exception : Type :=
| RequestError (msg : string)
| HTTPStatusError (msg : string) (status_code : Z)
| ValueError (msg : string)
| Fault (f : fault)
| OtherException (msg : string).

Inductive exc_class : Type :=
| cRequestError | cHTTPStatusError | cValueError | cException.

(** [isinstance(e, cls)], which an [except cls] clause tests. *)
Definition isinstance (e : exception) (c : exc_class) : bool :=
  match c, e with
  | cException, _ => true
  | cRequestError, RequestError _ => true
  | cHTTPStatusError, HTTPStatusError _ _ => true
  | cValueError, ValueError _ => true
  | _, _ => false
  end.

(** The text of the interpreter's own exceptions differs between Python
    versions; the tools only interpolate it, so it is a parameter. *)
Class Interpreter : Type := { fault_message : fault -> string }.

(** [str(e)], as an f-string renders [{e}]. *)
Definition str_exc `{Interpreter} (e : exception) : string :=
  match e with
  | RequestError m => m
  | HTTPStatusError m _ => m
  | ValueError m => m
  | Fault f => fault_message f
  | OtherException m => m
  end.

(** *** Computations that may raise *)

(** A computation over a state [S] either returns or raises; the state it
    leaves behind is kept in both cases. *)
Definition M (S A : Type) : Type := S -> (exception + A) * S.

Definition ret {S A : Type} (a : A) : M S A := fun s => (inr a, s).

Definition raise {S A : Type} (e : exception) : M S A := fun s => (inl e, s).

Definition bind {S A B : Type} (m : M S A) (k : A -> M S B) : M S B :=
  fun s =>
    match m s with
    | (inr a, s') => k a s'
    | (inl e, s') => (inl e, s')
    end.

Notation "x <- m ;; k" := (bind m (fun x => k))
  (at level 61, m at next level, right associativity).

(** [try: body except C1 as e: h1 ... except Cn as e: hn]: the first clause
    whose class the exception is an instance of handles it; with none, it
    propagates. *)
Fixpoint handle {S A : Type} (clauses : list (exc_class * (exception -> M S A)))
    (e : exception) : M S A :=
  match clauses with
  | [] => raise e
  | (c, h) :: rest => if isinstance e c then h e else handle rest e
  end.

Definition try_except {S A : Type} (body : M S A)
    (clauses : list (exc_class * (exception -> M S A))) : M S A :=
  fun s =>
    match body s with
    | (inl e, s') => handle clauses e s'
    | (inr a, s') => (inr a, s')
    end.

(** *** Operators on values *)

(** [k in x] for a string [k]: a key of a dict, an element of a list, a
    substring of a str; anything else is not a container. *)
Definition py_contains {S : Type} (k : string) (x : value) : M S bool :=
  match x with
  | VDict d => ret (dict_has d k)
  | VList l =>
      ret (existsb (fun v => match v with VStr s => String.eqb s k | _ => false end) l)
  | VStr s => ret (str_contains k s)
  | _ => raise (Fault (NotIterable x))
  end.

(** [x[k]] for a string [k]. *)
Definition py_getitem {S : Type} (x : value) (k : string) : M S value :=
  match x with
  | VDict d =>
      match dict_get d k with
      | Some v => ret v
      | None => raise (Fault (KeyMissing k))
      end
  | _ => raise (Fault (BadSubscript x))
  end.

(** [x[k] = v] for a string [k]; the updated object is returned. *)
Definition py_setitem {S : Type} (x : value) (k : string) (v : value) : M S value :=
  match x with
  | VDict d => ret (VDict (dict_set d k v))
  | _ => raise (Fault (NoItemAssignment x))
  end.

(** [len(x)]. *)
Definition py_len {S : Type} (x : value) : M S Z :=
  match x with
  | VList l => ret (Z.of_nat (List.length l))
  | VStr s => ret (Z.of_nat (String.length s))
  | VDict d => ret (Z.of_nat (List.length d))
  | _ => raise (Fault (NoLen x))
  end.

(** [x[lo:hi]]. *)
Definition py_slice {S : Type} (x : value) (lo hi : Z) : M S value :=
  match x with
  | VList l => ret (VList (slice_list l lo hi))
  | VStr s => ret (VStr (slice_str s lo hi))
  | _ => raise (Fault (NotSliceable x))
  end.

(** [a // b] on [int]: floor division, which is [Z.div]. *)
Definition py_floordiv {S : Type} (a b : Z) : M S Z :=
  if b =? 0 then raise (Fault DivisionByZero) else ret (a / b).

(** [isinstance(x, str)]. *)
Definition is_str (x : value) : bool :=
  match x with VStr _ => true | _ => false end.

(** An optional argument: [None] when the caller left it out. *)
Definition optional {A : Type} (inj : A -> value) (x : option A) : value :=
  match x with Some a => inj a | None => VNone end.

(** *** json.dumps *)

Definition dquote : string := String "034"%char EmptyString.

Definition hex_digit (n : nat) : string :=
  String.substring n 1 "0123456789abcdef".

(** One character of a string literal, with [ensure_ascii] on (the default):
    the quote, the backslash and the usual control characters have short
    escapes; everything outside the range space .. tilde is written \uXXXX. *)
Definition escape_char (c : ascii) : string :=
  let n := nat_of_ascii c in
  if Ascii.eqb c "034"%char then "\" ++ dquote
  else if Ascii.eqb c "\"%char then "\\"
  else if Ascii.eqb c "010"%char then "\n"
  else if Ascii.eqb c "013"%char then "\r"
  else if Ascii.eqb c "009"%char then "\t"
  else if Ascii.eqb c "012"%char then "\f"
  else if Ascii.eqb c "008"%char then "\b"
  else if ((n <? 32) || (126 <? n))%nat
       then "\u00" ++ hex_digit (n / 16) ++ hex_digit (n mod 16)
       else String c EmptyString.

Fixpoint escape_string (s : string) : string :=
  match s with
  | EmptyString => EmptyString
  | String c rest => escape_char c ++ escape_string rest
  end.

Definition dumps_str (s : string) : string := dquote ++ escape_string s ++ dquote.

Definition dumps_float (repr : string) : string :=
  if String.eqb repr "nan" then "NaN"
  else if String.eqb repr "inf" then "Infinity"
  else if String.eqb repr "-inf" then "-Infinity"
  else repr.

(** [json.dumps(x)] with the default separators [", "] and [": "]. *)
Fixpoint json_dumps (x : value) : string :=
  match x with
  | VNone => "null"
  | VBool true => "true"
  | VBool false => "false"
  | VInt n => str_int n
  | VFloat r => dumps_float r
  | VStr s => dumps_str s
  | VList l => "[" ++ String.concat ", " (map json_dumps l) ++ "]"
  | VDict d =>
      "{" ++ String.concat ", "
               (map (fun kv => dumps_str (fst kv) ++ ": " ++ json_dumps (snd kv)) d)
          ++ "}"
  end.

End Py.

(* ================================================================== *)
(** ** The HTTP client *)
(* ================================================================== *)

Module httpx.
Import Py.

(** A request as [client.get(url, params=...)] describes it: [params] is
    [None] when the call passes none. A GET carries no body. *)
Record Request : Type := {
  req_method : string;
  req_url : string;
  req_params : option dict
}.

(** A response as the tools look at it: its status, the text httpx gives the
    [HTTPStatusError] it raises for it, and what decoding its body gives. *)
Record Response : Type := {
  status_code : Z;
  status_text : string;
  decoded : exception + value
}.

(** Everything outside the process: how the remote side answers a request
    (with a response, or with whatever [client.get] raises), and the requests
    made so far. *)
Record World : Type := {
  server : Request -> exception + Response;
  sent : list Request
}.

Definition IO := M World.

(** [await client.get(url, params=params)] inside
    [async with httpx.AsyncClient() as client]. *)
Definition client_get (url : string) (params : option dict) : IO Response :=
  fun w =>
    let req := {| req_method := "GET"; req_url := url; req_params := params |} in
    (server w req, {| server := server w; sent := sent w ++ [req] |}).

(** 2xx. *)
Definition is_success (code : Z) : bool := (200 <=? code) && (code <=? 299).

(** [response.raise_for_status()]: raises for any status that is not 2xx. *)
Definition raise_for_status (r : Response) : IO unit :=
  if is_success (status_code r) then ret tt
  else raise (HTTPStatusError (status_text r) (status_code r)).

(** [response.json()]. *)
Definition response_json (r : Response) : IO value :=
  match decoded r with
  | inr v => ret v
  | inl e => raise e
  end.

(** [exc.response.status_code]. *)
Definition exc_response_status_code (exc : exception) : IO Z :=
  match exc with
  | HTTPStatusError _ code => ret code
  | _ => raise (Fault (NoAttribute "response"))
  end.

End httpx.

(* ================================================================== *)
(** ** cbdb_addr/cbdb_addr.py *)
(* ================================================================== *)

Module cbdb_addr.
Import Py httpx.

(** [search_places_under_location(name, accurate=1, startTime=None,
    endTime=None, start=1, list_length=10)]. *)
Definition search_places_under_location `{Interpreter}
    (name : string) (accurate : Z) (startTime endTime : option Z)
    (start list_length : Z) : IO value :=
  let api_url := "https://input.cbdb.fas.harvard.edu/api/place_list" in
  let params := [ ("name", VStr name);
                  ("accurate", VInt accurate);
                  ("start", VInt start);
                  ("list", VInt list_length) ] in
  (* Include optional filters only if provided *)
  let params := match startTime with
                | Some t => dict_set params "startTime" (VInt t)
                | None => params
                end in
  let params := match endTime with
                | Some t => dict_set params "endTime" (VInt t)
                | None => params
                end in
  try_except
    (response <- client_get api_url (Some params) ;;
     _ <- raise_for_status response ;;
     response_json response)
    [ (cRequestError, fun exc =>
         ret (VDict [("error", VStr ("API request failed: " ++ str_exc exc))]));
      (cException, fun e =>
         ret (VDict [("error", VStr ("An unexpected error occurred: " ++ str_exc e))])) ].

End cbdb_addr.

(* ================================================================== *)
(** ** cbdb_addr_person/cbdb_addr_person.py *)
(* ================================================================== *)

Module cbdb_addr_person.
Import Py httpx.

(** The module's own copy of the location search. *)
Definition search_places_under_location `{Interpreter}
    (name : string) (accurate : Z) (startTime endTime : option Z)
    (start list_length : Z) : IO value :=
  let api_url := "https://input.cbdb.fas.harvard.edu/api/place_list" in
  let params := [ ("name", VStr name);
                  ("accurate", VInt accurate);
                  ("start", VInt start);
                  ("list", VInt list_length) ] in
  (* Include optional filters only if provided *)
  let params := match startTime with
                | Some t => dict_set params "startTime" (VInt t)
                | None => params
                end in
  let params := match endTime with
                | Some t => dict_set params "endTime" (VInt t)
                | None => params
                end in
  try_except
    (response <- client_get api_url (Some params) ;;
     _ <- raise_for_status response ;;
     response_json response)
    [ (cRequestError, fun exc =>
         ret (VDict [("error", VStr ("API request failed: " ++ str_exc exc))]));
      (cException, fun e =>
         ret (VDict [("error", VStr ("An unexpected error occurred: " ++ str_exc e))])) ].

(** The payload [query_people_by_place] builds: all parameters, with [None]
    for the ones left out. *)
Definition request_payload_of
    (people_place : list Z) (place_type : list string) (use_date : Z)
    (date_type : option string) (date_start_time date_end_time : option Z)
    (dyn_start dyn_end : option Z) (use_xy start list_length : Z) : value :=
  VDict [ ("peoplePlace", VList (map VInt people_place));
          ("placeType", VList (map VStr place_type));
          ("useDate", VInt use_date);
          ("dateType", optional VStr date_type);
          ("dateStartTime", optional VInt date_start_time);
          ("dateEndTime", optional VInt date_end_time);
          ("dynStart", optional VInt dyn_start);
          ("dynEnd", optional VInt dyn_end);
          ("useXy", VInt use_xy);
          ("start", VInt start);
          ("list", VInt list_length) ].

(** [query_people_by_place(people_place, place_type, use_date=0,
    date_type=None, date_start_time=None, date_end_time=None, dyn_start=None,
    dyn_end=None, use_xy=0, start=1, list_length=50)]. *)
Definition query_people_by_place `{Interpreter}
    (people_place : list Z) (place_type : list string) (use_date : Z)
    (date_type : option string) (date_start_time date_end_time : option Z)
    (dyn_start dyn_end : option Z) (use_xy start list_length : Z) : IO value :=
  let api_url := "https://input.cbdb.fas.harvard.edu/api/query_place" in
  let payload := request_payload_of people_place place_type use_date date_type
                   date_start_time date_end_time dyn_start dyn_end use_xy
                   start list_length in
  (* Convert the payload to a JSON string for the RequestPayload parameter *)
  let request_payload := json_dumps payload in
  try_except
    (response <- client_get (api_url ++ "?RequestPayload=" ++ request_payload) None ;;
     _ <- raise_for_status response ;;
     response_json response)
    [ (cRequestError, fun exc =>
         ret (VDict [("error", VStr ("API request failed: " ++ str_exc exc))]));
      (cException, fun e =>
         ret (VDict [("error", VStr ("An unexpected error occurred: " ++ str_exc e))])) ].

End cbdb_addr_person.

(* ================================================================== *)
(** ** chgis/chgis.py *)
(* ================================================================== *)

Module chgis.
Import Py httpx.

(** The block of [search_historical_places] that follows
    [results = response.json()] (source lines 67 to 84), named so that facts
    about it can be stated: client-side pagination of [results], which is
    then returned. *)
Definition paginate (results : value) (start list_length : Z) : IO value :=
  (* Check if we have results and perform client-side pagination if needed *)
  present <- py_contains "placenames" results ;;
  nonempty <- (if present : bool
               then v <- py_getitem results "placenames" ;; ret (truthy v)
               else ret false) ;;
  if nonempty : bool then
    placenames <- py_getitem results "placenames" ;;
    (* Apply pagination (client-side) *)
    total <- py_len placenames ;;
    paginated_results <-
      (if start <=? total
       then py_slice placenames (start - 1) (start - 1 + list_length)
       else ret (VList [])) ;;
    (* Update the response with paginated results *)
    results <- py_setitem results "placenames" paginated_results ;;
    shown <- py_len paginated_results ;;
    results <- py_setitem results "count of displayed results"
                 (VStr (str_int shown)) ;;
    (* Add pagination info to the response *)
    shown' <- py_len paginated_results ;;
    end_ <- (if 0 <? shown'
             then shown'' <- py_len paginated_results ;;
                  total' <- py_len placenames ;;
                  ret (Z.min (start + shown'' - 1) total')
             else ret start) ;;
    total'' <- py_len placenames ;;
    total_pages <- py_floordiv (total'' + list_length - 1) list_length ;;
    results <- py_setitem results "pagination"
                 (VDict [ ("start", VInt start);
                          ("end", VInt end_);
                          ("total_pages", VInt total_pages) ]) ;;
    ret results
  else
    ret results.

(** [search_historical_places(name, year=None, feature_type=None,
    parent=None, start=1, list_length=10)]. *)
Definition search_historical_places `{Interpreter}
    (name : string) (year : option Z) (feature_type parent : option string)
    (start list_length : Z) : IO value :=
  let api_url := "http://tgaz.fudan.edu.cn/tgaz/placename" in
  (* Build parameters for faceted search *)
  let params := [ ("fmt", VStr "json"); ("n", VStr name) ] in
  let params := match year with
                | Some y => dict_set params "yr" (VInt y)
                | None => params
                end in
  let params := match feature_type with
                | Some t => dict_set params "ftyp" (VStr t)
                | None => params
                end in
  let params := match parent with
                | Some p => dict_set params "p" (VStr p)
                | None => params
                end in
  try_except
    (response <- client_get api_url (Some params) ;;
     _ <- raise_for_status response ;;
     results <- response_json response ;;
     paginate results start list_length)
    [ (cRequestError, fun exc =>
         ret (VDict [("error", VStr ("API request failed: " ++ str_exc exc))]));
      (cException, fun e =>
         ret (VDict [("error", VStr ("An unexpected error occurred: " ++ str_exc e))])) ].

(** The identifier [get_place_details] looks up: with the hvd_ prefix. *)
Definition normalize_place_id (place_id : string) : string :=
  if negb (String.prefix "hvd_" place_id) then "hvd_" ++ place_id else place_id.

(** [get_place_details(place_id)]. *)
Definition get_place_details `{Interpreter} (place_id : string) : IO value :=
  let place_id := normalize_place_id place_id in
  let api_url := "http://tgaz.fudan.edu.cn/tgaz/placename/json/" ++ place_id in
  try_except
    (response <- client_get api_url None ;;
     _ <- raise_for_status response ;;
     place_data <- response_json response ;;
     (* Handle any potential parsing issues with source_note: the test is
        evaluated, its branch is [pass] *)
     present <- py_contains "source note" place_data ;;
     _ <- (if present : bool
           then v <- py_getitem place_data "source note" ;; ret (is_str v)
           else ret false) ;;
     ret place_data)
    [ (cRequestError, fun exc =>
         ret (VDict [("error", VStr ("API request failed: " ++ str_exc exc))]));
      (cHTTPStatusError, fun exc =>
         code <- exc_response_status_code exc ;;
         ret (VDict [("error", VStr ("HTTP error status: " ++ str_int code))]));
      (cValueError, fun exc =>
         ret (VDict [("error", VStr ("Invalid response format: " ++ str_exc exc))]));
      (cException, fun e =>
         ret (VDict [("error", VStr ("An unexpected error occurred: " ++ str_exc e))])) ].

End chgis.

(* ================================================================== *)
(** ** Vocabulary of the specification *)
(* ================================================================== *)

Module Spec.
Import Py httpx.

(** What a tool call hands back to its caller, and the requests on record
    once it has. *)
Definition returned {A : Type} (m : IO A) (w : World) : exception + A := fst (m w).

Definition requests_after {A : Type} (m : IO A) (w : World) : list Request :=
  sent (snd (m w)).

(** The error object: a dictionary with the single key error and a string. *)
Definition error_dict (message : string) : value := VDict [("error", VStr message)].

Definition error_object (r : value) : Prop := exists message, r = error_dict message.

Definition GET (url : string) (params : option dict) : Request :=
  {| req_method := "GET"; req_url := url; req_params := params |}.

(** What one fetch (request, status check, decoding) produces from the
    remote side's answer: the decoded body, or the exception of the step
    that failed. *)
Definition fetched (answer : exception + Response) : exception + value :=
  match answer with
  | inl e => inl e
  | inr resp =>
      if is_success (status_code resp) then decoded resp
      else inl (HTTPStatusError (status_text resp) (status_code resp))
  end.

(** The part of a URL after its first question mark. *)
Fixpoint after_question_mark (url : string) : option string :=
  match url with
  | EmptyString => None
  | String c rest => if Ascii.eqb c "?"%char then Some rest else after_question_mark rest
  end.

(** *** The four requests, as the specification describes them *)

Definition present {A : Type} (k : string) (inj : A -> value) (x : option A) : dict :=
  match x with Some a => [(k, inj a)] | None => [] end.

Definition place_list_request (name : string) (accurate : Z)
    (startTime endTime : option Z) (start list_length : Z) : Request :=
  GET "https://input.cbdb.fas.harvard.edu/api/place_list"
      (Some ([ ("name", VStr name); ("accurate", VInt accurate);
               ("start", VInt start); ("list", VInt list_length) ]
             ++ present "startTime" VInt startTime
             ++ present "endTime" VInt endTime)%list).

Definition placename_request (name : string) (year : option Z)
    (feature_type parent : option string) : Request :=
  GET "http://tgaz.fudan.edu.cn/tgaz/placename"
      (Some ([ ("fmt", VStr "json"); ("n", VStr name) ]
             ++ present "yr" VInt year
             ++ present "ftyp" VStr feature_type
             ++ present "p" VStr parent)%list).

Definition place_detail_request (place_id : string) : Request :=
  GET ("http://tgaz.fudan.edu.cn/tgaz/placename/json/"
       ++ (if String.prefix "hvd_" place_id then place_id else "hvd_" ++ place_id))
      None.

(** One member of a serialized object: the quoted key, a colon, the value. *)
Definition member (k text : string) : string := dquote ++ k ++ dquote ++ ": " ++ text.

Definition null_or {A : Type} (show : A -> string) (x : option A) : string :=
  match x with Some a => show a | None => "null" end.

(** The text of the place-person filter: all eleven members, a missing
    optional one written null. *)
Definition query_place_text
    (people_place : list Z) (place_type : list string) (use_date : Z)
    (date_type : option string) (date_start_time date_end_time : option Z)
    (dyn_start dyn_end : option Z) (use_xy start list_length : Z) : string :=
  "{" ++ String.concat ", "
    [ member "peoplePlace" ("[" ++ String.concat ", " (map str_int people_place) ++ "]");
      member "placeType" ("[" ++ String.concat ", " (map dumps_str place_type) ++ "]");
      member "useDate" (str_int use_date);
      member "dateType" (null_or dumps_str date_type);
      member "dateStartTime" (null_or str_int date_start_time);
      member "dateEndTime" (null_or str_int date_end_time);
      member "dynStart" (null_or str_int dyn_start);
      member "dynEnd" (null_or str_int dyn_end);
      member "useXy" (str_int use_xy);
      member "start" (str_int start);
      member "list" (str_int list_length) ] ++ "}".

Definition query_place_request
    (people_place : list Z) (place_type : list string) (use_date : Z)
    (date_type : option string) (date_start_time date_end_time : option Z)
    (dyn_start dyn_end : option Z) (use_xy start list_length : Z) : Request :=
  GET ("https://input.cbdb.fas.harvard.edu/api/query_place?RequestPayload="
       ++ json_dumps (cbdb_addr_person.request_payload_of people_place place_type
                        use_date date_type date_start_time date_end_time
                        dyn_start dyn_end use_xy start list_length))
      None.

(** *** Gazetteer pagination, in the specification's words *)

(** The elements of [l] at the zero-based indices [lo <= i < hi]. *)
Definition elements_between {A : Type} (l : list A) (lo hi : Z) : list A :=
  flat_map
    (fun i => if i <? 0 then []
              else match nth_error l (Z.to_nat i) with Some x => [x] | None => [] end)
    (map (fun k => lo + Z.of_nat k) (seq 0 (Z.to_nat (hi - lo)))).

(** The page: indices [s-1 .. min(s-1+n, L)) when [s <= L], else nothing. *)
Definition page_of {A : Type} (l : list A) (s n : Z) : list A :=
  let L := Z.of_nat (List.length l) in
  if s <=? L then elements_between l (s - 1) (Z.min (s - 1 + n) L) else [].

(** Ceiling of [a / b]. *)
Definition ceil_div (a b : Z) : Z := - ((- a) / b).

(** The pagination object for a list of length [L] and a page of length [k]. *)
Definition pagination_of (L k s n : Z) : value :=
  VDict [ ("start", VInt s);
          ("end", VInt (if 0 <? k then Z.min (s + k - 1) L else s));
          ("total_pages", VInt (ceil_div L n)) ].

(** The result [r] is paginated as specified for the upstream list [l]. *)
Definition paginated (l : list value) (s n : Z) (r : value) : Prop :=
  let page := page_of l s n in
  let L := Z.of_nat (List.length l) in
  let k := Z.of_nat (List.length page) in
  exists d,
    r = VDict d /\
    dict_get d "placenames" = Some (VList page) /\
    dict_get d "count of displayed results" = Some (VStr (str_int k)) /\
    dict_get d "pagination" = Some (pagination_of L k s n).

(** The page as the code cuts it, with Python's slice. *)
Definition python_page {A : Type} (l : list A) (s n : Z) : list A :=
  if s <=? Z.of_nat (List.length l) then slice_list l (s - 1) (s - 1 + n) else [].

(** [d] after the three assignments of the pagination block. *)
Definition paginated_dict (d : dict) (page count pagination : value) : value :=
  VDict (dict_set (dict_set (dict_set d "placenames" page)
                     "count of displayed results" count)
           "pagination" pagination).

(** The three keys pagination may write. *)
Definition pagination_key (k : string) : bool :=
  String.eqb k "placenames" || String.eqb k "count of displayed results"
  || String.eqb k "pagination".

(** [r] is an object that agrees with [d] on every other key. *)
Definition same_outside_pagination (d : dict) (r : value) : Prop :=
  exists d', r = VDict d' /\
    forall k, pagination_key k = false -> dict_get d' k = dict_get d k.

(** *** Error messages *)

(** The two-tier message of the searches: transport failures apart,
    everything else together. *)
Definition two_tier_message `{Interpreter} (e : exception) : string :=
  match e with
  | RequestError m => "API request failed: " ++ m
  | _ => "An unexpected error occurred: " ++ str_exc e
  end.

(** The four templates of the place-detail lookup. *)
Definition detail_message `{Interpreter} (e : exception) : string :=
  match e with
  | RequestError m => "API request failed: " ++ m
  | HTTPStatusError _ code => "HTTP error status: " ++ str_int code
  | ValueError m => "Invalid response format: " ++ m
  | _ => "An unexpected error occurred: " ++ str_exc e
  end.

(** The failure categories the place-detail lookup tells apart. *)
Inductive failure_category : Type :=
| Transport | HttpStatus | Decoding | Unexpected.

Definition category (e : exception) : failure_category :=
  match e with
  | RequestError _ => Transport
  | HTTPStatusError _ _ => HttpStatus
  | ValueError _ => Decoding
  | _ => Unexpected
  end.

(** *** The shape of a tool call *)





(** The key of an optional parameter, when the caller gave it. *)
Definition given {A : Type} (k : string) (x : option A) : list string :=
  match x with Some _ => [k] | None => [] end.

(** *** Sample inputs *)

(** The interpreter's messages as CPython 3.11 words them. *)
Definition type_name (x : value) : string :=
  match x with
  | VNone => "NoneType"
  | VBool _ => "bool"
  | VInt _ => "int"
  | VFloat _ => "float"
  | VStr _ => "str"
  | VList _ => "list"
  | VDict _ => "dict"
  end.

Definition cpython_message (f : fault) : string :=
  match f with
  | NotIterable x => "argument of type '" ++ type_name x ++ "' is not iterable"
  | BadSubscript x =>
      match x with
      | VList _ => "list indices must be integers or slices, not str"
      | VStr _ => "string indices must be integers, not 'str'"
      | _ => "'" ++ type_name x ++ "' object is not subscriptable"
      end
  | KeyMissing k => "'" ++ k ++ "'"
  | NoLen x => "object of type '" ++ type_name x ++ "' has no len()"
  | NotSliceable x =>
      match x with
      | VDict _ => "unhashable type: 'slice'"
      | _ => "'" ++ type_name x ++ "' object is not subscriptable"
      end
  | NoItemAssignment x => "'" ++ type_name x ++ "' object does not support item assignment"
  | NoAttribute a => "object has no attribute '" ++ a ++ "'"
  | DivisionByZero => "integer division or modulo by zero"
  end.

Definition cpython : Interpreter := {| fault_message := cpython_message |}.

(** A remote side that answers every request the same way. *)
Definition answering (answer : exception + Response) : World :=
  {| server := fun _ => answer; sent := [] |}.

Definition ok_response (body : value) : Response :=
  {| status_code := 200; status_text := "OK"; decoded := inr body |}.

Definition status_response (code : Z) : Response :=
  {| status_code := code;
     status_text := "Client error";
     decoded := inl (ValueError "Expecting value: line 1 column 1 (char 0)") |}.

Definition numbered (n : nat) : list value :=
  map (fun i => VInt (Z.of_nat i)) (seq 1 n).

Definition gazetteer_body (l : list value) : value :=
  VDict [ ("system", VStr "CHGIS");
          ("count of displayed results", VStr (str_int (Z.of_nat (List.length l))));
          ("placenames", VList l) ].

(** *** Reading a result *)

(** The field [k] of what a call returned, when that is an object. *)
Definition field_of (k : string) (r : exception + value) : option value :=
  match r with
  | inr (VDict d) => dict_get d k
  | _ => None
  end.

(** The results a call displays: its placenames list. *)
Definition placenames_of (r : exception + value) : list value :=
  match field_of "placenames" r with
  | Some (VList page) => page
  | _ => []
  end.

(** The number of pages a call reports. *)
Definition total_pages_of (r : exception + value) : option value :=
  match field_of "pagination" r with
  | Some (VDict p) => dict_get p "total_pages"
  | _ => None
  end.

(** The key [k] when assigning to it adds it to [d], nothing when [d] has
    it already. *)
Definition added_key (d : dict) (k : string) : list string :=
  if dict_has d k then [] else [k].

(** The values [len] accepts. *)
Definition sized (v : value) : bool :=
  match v with
  | VList _ | VStr _ | VDict _ => true
  | _ => false
  end.

(** The string [k] as an element of a list. *)
Definition is_text (k : string) (v : value) : bool :=
  match v with VStr s => String.eqb s k | _ => false end.

(** The error object of the catch-all clause for an exception the
    interpreter raised. *)
Definition unexpected `{Interpreter} (f : fault) : value :=
  error_dict ("An unexpected error occurred: " ++ fault_message f).

(** [tool] reports a response with an error status, and a body that does not
    decode, through the catch-all clause: the message is the exception's
    text after the same fixed words. *)
Definition reports_unexpected `{Interpreter} (tool : IO value) (w : World)
    (req : Request) : Prop :=
  (forall resp,
     server w req = inr resp -> is_success (status_code resp) = false ->
     returned tool w
     = inr (error_dict ("An unexpected error occurred: " ++ status_text resp)))
  /\ (forall resp m,
        server w req = inr resp -> is_success (status_code resp) = true ->
        decoded resp = inl (ValueError m) ->
        returned tool w = inr (error_dict ("An unexpected error occurred: " ++ m))).

(** *** Keys of a result *)



(** *** The query string of a URL *)

(** The specification speaks of query-string parameters.  A URL is divided
    as RFC 3986 divides it: the fragment starts at the first number sign,
    the query at the first question mark before it; the query is cut into
    parameters at each ampersand, and a parameter into a name and a value at
    its first equals sign.  Names and values are the text as written, before
    any percent-decoding. *)
Fixpoint has_char (c : ascii) (s : string) : bool :=
  match s with
  | EmptyString => false
  | String a rest => Ascii.eqb a c || has_char c rest
  end.

Fixpoint before_char (c : ascii) (s : string) : string :=
  match s with
  | EmptyString => EmptyString
  | String a rest => if Ascii.eqb a c then EmptyString else String a (before_char c rest)
  end.

Fixpoint after_char (c : ascii) (s : string) : string :=
  match s with
  | EmptyString => EmptyString
  | String a rest => if Ascii.eqb a c then rest else after_char c rest
  end.

Fixpoint split_on (c : ascii) (s : string) : list string :=
  match s with
  | EmptyString => [EmptyString]
  | String a rest =>
      if Ascii.eqb a c then EmptyString :: split_on c rest
      else match split_on c rest with
           | piece :: pieces => String a piece :: pieces
           | [] => [String a EmptyString]
           end
  end.

Definition name_value (s : string) : string * string :=
  (before_char "=" s, after_char "=" s).

Definition query_parameters (url : string) : list (string * string) :=
  match after_question_mark (before_char "#" url) with
  | None => []
  | Some query => map name_value (split_on "&" query)
  end.

(** A text without the two characters that end a parameter or the query. *)
Definition plain (s : string) : bool :=
  negb (has_char "&" s) && negb (has_char "#" s).

Definition plain_option (x : option string) : bool :=
  match x with Some s => plain s | None => true end.

End Spec.

(* ================================================================== *)
(** ** Facts about the Python fragment *)
(* ================================================================== *)

Module PyFacts.
Import Py.

Lemma dict_get_set_same (d : dict) (k : string) (v : value) :
  dict_get (dict_set d k v) k = Some v.
Proof.
  induction d as [|[k' v'] d IH]; simpl.
  - now rewrite String.eqb_refl.
  - destruct (String.eqb k' k) eqn:E; simpl; rewrite E; auto.
Qed.

Lemma dict_get_set_other (d : dict) (k k' : string) (v : value) :
  String.eqb k k' = false ->
  dict_get (dict_set d k v) k' = dict_get d k'.
Proof.
  intros Hk. induction d as [|[k0 v0] d IH]; simpl.
  - now rewrite Hk.
  - destruct (String.eqb k0 k) eqn:E; simpl.
    + apply String.eqb_eq in E. subst k0. now rewrite Hk.
    + now rewrite IH.
Qed.

Lemma skipn_nth_error {A : Type} (l : list A) (a : nat) :
  skipn a l = match nth_error l a with
              | Some x => x :: skipn (S a) l
              | None => []
              end.
Proof.
  revert a. induction l as [|x l IH]; intros [|a]; simpl; auto.
Qed.

Lemma firstn_skipn_by_index {A : Type} (l : list A) (b a : nat) :
  firstn b (skipn a l)
  = flat_map (fun i => match nth_error l i with Some x => [x] | None => [] end)
             (seq a b).
Proof.
  revert a. induction b as [|b IH]; intros a.
  - reflexivity.
  - rewrite skipn_nth_error.
    change (seq a (S b)) with (a :: seq (S a) b).
    cbn [flat_map]. rewrite <- IH.
    destruct (nth_error l a) as [x|] eqn:E.
    + reflexivity.
    + apply nth_error_None in E.
      rewrite skipn_all2 by lia. now destruct b.
Qed.

Lemma adjust_index_inside (len i : Z) :
  0 <= i -> adjust_index len i = Z.min i len.
Proof.
  intros Hi. unfold adjust_index.
  destruct (i <? 0) eqn:E; [apply Z.ltb_lt in E; lia | reflexivity].
Qed.

(** Floor division by a positive number rounds the shifted numerator up. *)
Lemma shifted_floor_is_ceiling (a b : Z) :
  0 < b -> (a + b - 1) / b = - ((- a) / b).
Proof.
  intros Hb.
  pose proof (Z.div_mod (- a) b ltac:(lia)) as Hdm.
  pose proof (Z.mod_pos_bound (- a) b Hb) as Hbound.
  symmetry. apply (Z.div_unique_pos _ _ _ (b - 1 - (- a) mod b)); lia.
Qed.

Lemma prefix_refl (s : string) : String.prefix s s = true.
Proof.
  induction s as [|c s IH]; simpl; [reflexivity|].
  destruct (ascii_dec c c); [assumption | contradiction].
Qed.

(** A text contains whatever it ends with. *)
Lemma str_contains_suffix (front x : string) :
  str_contains x (front ++ x) = true.
Proof.
  induction front as [|c front IH].
  - cbn [append]. destruct x; cbn [str_contains]; now rewrite prefix_refl.
  - cbn [append str_contains]. rewrite IH.
    now destruct (String.prefix x (String c (front ++ x))).
Qed.

End PyFacts.

(* ================================================================== *)
(** ** Facts about the tools *)
(* ================================================================== *)

Module ToolFacts.
Import Py httpx Spec PyFacts.

(** The world after one more request. *)
Lemma client_get_spec (url : string) (params : option dict) (w : World) :
  client_get url params w
  = (server w (GET url params),
     {| server := server w; sent := sent w ++ [GET url params] |}).
Proof. reflexivity. Qed.

(** Request, status check and decoding, followed by [k] on the decoded
    body, all under one [try]. *)
Lemma fetch_then {A : Type} (k : value -> IO A)
    (clauses : list (exc_class * (exception -> IO A)))
    (url : string) (params : option dict) (w : World) :
  try_except
    (response <- client_get url params ;;
     _ <- raise_for_status response ;;
     results <- response_json response ;;
     k results) clauses w
  = match fetched (server w (GET url params)) with
    | inl e =>
        handle clauses e {| server := server w; sent := sent w ++ [GET url params] |}
    | inr results =>
        try_except (k results) clauses
          {| server := server w; sent := sent w ++ [GET url params] |}
    end.
Proof.
  unfold try_except, bind, fetched, raise_for_status, response_json.
  rewrite client_get_spec.
  destruct (server w (GET url params)) as [e|resp]; [reflexivity|].
  destruct (is_success (status_code resp)); [|reflexivity].
  unfold ret, raise. destruct (decoded resp); reflexivity.
Qed.

(** The same with decoding as the last statement. *)
Lemma fetch_only (clauses : list (exc_class * (exception -> IO value)))
    (url : string) (params : option dict) (w : World) :
  try_except
    (response <- client_get url params ;;
     _ <- raise_for_status response ;;
     response_json response) clauses w
  = match fetched (server w (GET url params)) with
    | inl e =>
        handle clauses e {| server := server w; sent := sent w ++ [GET url params] |}
    | inr results =>
        (inr results, {| server := server w; sent := sent w ++ [GET url params] |})
    end.
Proof.
  unfold try_except, bind, fetched, raise_for_status, response_json.
  rewrite client_get_spec.
  destruct (server w (GET url params)) as [e|resp]; [reflexivity|].
  destruct (is_success (status_code resp)); [|reflexivity].
  unfold ret, raise. destruct (decoded resp); reflexivity.
Qed.

(** The two clauses of the searches catch everything. *)
Lemma handle_two_tier `{Interpreter} (e : exception) (w : World) :
  handle
    [ (cRequestError, fun exc =>
         ret (VDict [("error", VStr ("API request failed: " ++ str_exc exc))]));
      (cException, fun e =>
         ret (VDict [("error", VStr ("An unexpected error occurred: " ++ str_exc e))])) ]
    e w
  = (inr (error_dict (two_tier_message e)), w).
Proof. destruct e; reflexivity. Qed.

(** So do the four of the place-detail lookup. *)
Lemma handle_detail `{Interpreter} (e : exception) (w : World) :
  handle
    [ (cRequestError, fun exc =>
         ret (VDict [("error", VStr ("API request failed: " ++ str_exc exc))]));
      (cHTTPStatusError, fun exc =>
         code <- exc_response_status_code exc ;;
         ret (VDict [("error", VStr ("HTTP error status: " ++ str_int code))]));
      (cValueError, fun exc =>
         ret (VDict [("error", VStr ("Invalid response format: " ++ str_exc exc))]));
      (cException, fun e =>
         ret (VDict [("error", VStr ("An unexpected error occurred: " ++ str_exc e))])) ]
    e w
  = (inr (error_dict (detail_message e)), w).
Proof. destruct e; reflexivity. Qed.

(** *** What each pass-through tool does, in one equation *)

Lemma pass_through_run (clauses : list (exc_class * (exception -> IO value)))
    (message : exception -> string)
    (url : string) (params : option dict) (w : World) :
  (forall e w', handle clauses e w' = (inr (error_dict (message e)), w')) ->
  try_except
    (response <- client_get url params ;;
     _ <- raise_for_status response ;;
     response_json response) clauses w
  = (inr match fetched (server w (GET url params)) with
         | inr body => body
         | inl e => error_dict (message e)
         end,
     {| server := server w; sent := sent w ++ [GET url params] |}).
Proof.
  intros Hhandle. rewrite fetch_only.
  destruct (fetched (server w (GET url params))); [apply Hhandle | reflexivity].
Qed.

Lemma search_places_under_location_run `{Interpreter}
    (name : string) (accurate : Z) (startTime endTime : option Z)
    (start list_length : Z) (w : World) :
  cbdb_addr.search_places_under_location name accurate startTime endTime
    start list_length w
  = (inr match fetched (server w (place_list_request name accurate startTime
                                    endTime start list_length)) with
         | inr body => body
         | inl e => error_dict (two_tier_message e)
         end,
     {| server := server w;
        sent := sent w ++ [place_list_request name accurate startTime endTime
                             start list_length] |}).
Proof.
  unfold cbdb_addr.search_places_under_location.
  destruct startTime, endTime;
    exact (pass_through_run _ two_tier_message _ _ w handle_two_tier).
Qed.

Lemma search_places_under_location_copy_run `{Interpreter}
    (name : string) (accurate : Z) (startTime endTime : option Z)
    (start list_length : Z) (w : World) :
  cbdb_addr_person.search_places_under_location name accurate startTime endTime
    start list_length w
  = (inr match fetched (server w (place_list_request name accurate startTime
                                    endTime start list_length)) with
         | inr body => body
         | inl e => error_dict (two_tier_message e)
         end,
     {| server := server w;
        sent := sent w ++ [place_list_request name accurate startTime endTime
                             start list_length] |}).
Proof.
  unfold cbdb_addr_person.search_places_under_location.
  destruct startTime, endTime;
    exact (pass_through_run _ two_tier_message _ _ w handle_two_tier).
Qed.

Lemma query_people_by_place_run `{Interpreter}
    (people_place : list Z) (place_type : list string) (use_date : Z)
    (date_type : option string) (date_start_time date_end_time : option Z)
    (dyn_start dyn_end : option Z) (use_xy start list_length : Z) (w : World) :
  cbdb_addr_person.query_people_by_place people_place place_type use_date
    date_type date_start_time date_end_time dyn_start dyn_end use_xy start
    list_length w
  = (inr match fetched (server w (query_place_request people_place place_type
                                    use_date date_type date_start_time
                                    date_end_time dyn_start dyn_end use_xy
                                    start list_length)) with
         | inr body => body
         | inl e => error_dict (two_tier_message e)
         end,
     {| server := server w;
        sent := sent w ++ [query_place_request people_place place_type
                             use_date date_type date_start_time date_end_time
                             dyn_start dyn_end use_xy start list_length] |}).
Proof.
  unfold cbdb_addr_person.query_people_by_place.
  exact (pass_through_run _ two_tier_message _ _ w handle_two_tier).
Qed.

(** *** The specification's vocabulary against the code's *)

Lemma elements_between_firstn_skipn {A : Type} (l : list A) (lo hi : Z) :
  0 <= lo ->
  elements_between l lo hi = firstn (Z.to_nat (hi - lo)) (skipn (Z.to_nat lo) l).
Proof.
  intros Hlo. unfold elements_between. rewrite firstn_skipn_by_index.
  generalize (Z.to_nat (hi - lo)) as m. intros m.
  rewrite <- (Nat.add_0_r (Z.to_nat lo)) at 1.
  generalize 0%nat as start. intros start. revert start.
  induction m as [|m IH]; intros start; [reflexivity|].
  cbn [seq map flat_map]. rewrite IH, Nat.add_succ_r.
  replace (lo + Z.of_nat start <? 0) with false by (symmetry; apply Z.ltb_ge; lia).
  replace (Z.to_nat (lo + Z.of_nat start)) with (Z.to_nat lo + start)%nat by lia.
  reflexivity.
Qed.

(** Inside the range the claim has in mind, Python's slice is the page. *)
Lemma python_page_is_page {A : Type} (l : list A) (s n : Z) :
  1 <= s -> 0 <= n -> python_page l s n = page_of l s n.
Proof.
  intros Hs Hn. unfold python_page, page_of. cbv zeta.
  destruct (s <=? Z.of_nat (List.length l)) eqn:E; [|reflexivity].
  apply Z.leb_le in E.
  rewrite elements_between_firstn_skipn by lia.
  unfold slice_list. rewrite !adjust_index_inside by lia.
  replace (Z.min (s - 1) (Z.of_nat (List.length l))) with (s - 1) by lia.
  reflexivity.
Qed.

(** [ceil_div] is the ceiling: the least multiple of [b] reaching [a]. *)
Lemma ceil_div_is_ceiling (a b : Z) :
  0 < b -> b * (ceil_div a b - 1) < a <= b * ceil_div a b.
Proof.
  intros Hb. unfold ceil_div.
  pose proof (Z.div_mod (- a) b ltac:(lia)) as Hdm.
  pose proof (Z.mod_pos_bound (- a) b Hb) as Hbound.
  lia.
Qed.

(** *** The pagination block *)

Ltac msimpl :=
  cbv beta iota zeta delta
    [bind ret raise py_contains py_getitem py_setitem py_len py_slice
     py_floordiv dict_has truthy negb].

Ltac case_cond :=
  match goal with
  | |- context [if (?a <=? ?b)%Z then _ else _] => destruct (a <=? b)%Z eqn:?
  | |- context [if (?a <? ?b)%Z then _ else _] => destruct (a <? b)%Z eqn:?
  | |- context [if (?a =? ?b)%Z then _ else _] => destruct (a =? b)%Z eqn:?
  | |- context [if existsb ?f ?l then _ else _] => destruct (existsb f l) eqn:?
  | |- context [if str_contains ?a ?b then _ else _] =>
      destruct (str_contains a b) eqn:?
  | |- context [if (?a || ?b)%bool then _ else _] => destruct (a || b)%bool eqn:?
  | |- context [if String.eqb ?a ?b then _ else _] =>
      destruct (String.eqb a b) eqn:?
  end.

Ltac finish :=
  eexists; split; [reflexivity|]; cbv beta iota;
  first [ exact I | left; reflexivity
        | right; do 4 eexists; split; reflexivity ].

(** A list of results, a page size other than zero: the three keys are
    written. *)
Lemma paginate_list (d : dict) (l : list value) (s n : Z) (w : World) :
  dict_get d "placenames" = Some (VList l) -> l <> [] -> n <> 0 ->
  chgis.paginate (VDict d) s n w
  = (inr (paginated_dict d (VList (python_page l s n))
            (VStr (str_int (Z.of_nat (List.length (python_page l s n)))))
            (VDict [ ("start", VInt s);
                     ("end", VInt (if 0 <? Z.of_nat (List.length (python_page l s n))
                                   then Z.min (s + Z.of_nat (List.length (python_page l s n)) - 1)
                                          (Z.of_nat (List.length l))
                                   else s));
                     ("total_pages", VInt ((Z.of_nat (List.length l) + n - 1) / n)) ])),
     w).
Proof.
  intros Hget Hl Hn. unfold chgis.paginate. msimpl. rewrite Hget. msimpl.
  destruct l as [|x l]; [contradiction|]. msimpl.
  apply Z.eqb_neq in Hn. unfold python_page.
  destruct (s <=? Z.of_nat (List.length (x :: l))); msimpl;
    case_cond; msimpl; rewrite Hn; reflexivity.
Qed.

(** No results: nothing is touched. *)
Lemma paginate_nothing (d : dict) (s n : Z) (w : World) :
  dict_get d "placenames" = None \/
  (exists v, dict_get d "placenames" = Some v /\ truthy v = false) ->
  chgis.paginate (VDict d) s n w = (inr (VDict d), w).
Proof.
  intros [Hget | [v [Hget Hv]]]; unfold chgis.paginate;
    cbv beta iota zeta delta [bind ret raise py_contains py_getitem dict_has];
    rewrite Hget; cbv beta iota zeta; [reflexivity|].
  now rewrite Hv.
Qed.

(** Whatever the body: the block leaves the world alone, and what it returns
    is the body, or the body (an object) with the three keys written. *)
Lemma paginate_any (results : value) (s n : Z) (w : World) :
  exists res,
    chgis.paginate results s n w = (res, w) /\
    match res with
    | inl _ => True
    | inr r =>
        r = results \/
        exists d page count pagination,
          results = VDict d /\ r = paginated_dict d page count pagination
    end.
Proof.
  unfold chgis.paginate.
  destruct results as [| | | | |l|d]; msimpl.
  1-6: repeat (case_cond; msimpl); finish.
  destruct (dict_get d "placenames") as [v|] eqn:Hget; msimpl; [|finish].
  destruct v as [|[|]|z|r|s0|[|x l]|[|kv d0]]; msimpl;
    repeat (case_cond; msimpl); finish.
Qed.

(** *** The two tools of chgis, in one equation each *)

Lemma search_historical_places_run `{Interpreter}
    (name : string) (year : option Z) (feature_type parent : option string)
    (start list_length : Z) (w : World) :
  chgis.search_historical_places name year feature_type parent start list_length w
  = let w' := {| server := server w;
                 sent := sent w ++ [placename_request name year feature_type parent] |} in
    match fetched (server w (placename_request name year feature_type parent)) with
    | inl e => (inr (error_dict (two_tier_message e)), w')
    | inr results =>
        match chgis.paginate results start list_length w' with
        | (inl e, w'') => (inr (error_dict (two_tier_message e)), w'')
        | (inr r, w'') => (inr r, w'')
        end
    end.
Proof.
  unfold chgis.search_historical_places. cbv zeta. rewrite fetch_then.
  match goal with |- context [GET ?url ?params] =>
    replace (GET url params)
      with (placename_request name year feature_type parent)
      by (destruct year, feature_type, parent; reflexivity)
  end.
  destruct (fetched (server w (placename_request name year feature_type parent)))
    as [e|results]; [apply handle_two_tier|].
  unfold try_except.
  destruct (chgis.paginate results start list_length _) as [[e|r] w''];
    [apply handle_two_tier | reflexivity].
Qed.

Lemma get_place_details_run `{Interpreter} (place_id : string) (w : World) :
  exists r,
    chgis.get_place_details place_id w
    = (inr r, {| server := server w;
                 sent := sent w ++ [place_detail_request place_id] |})
    /\ match fetched (server w (place_detail_request place_id)) with
       | inl e => r = error_dict (detail_message e)
       | inr (VDict d) => r = VDict d
       | inr body => r = body \/ error_object r
       end.
Proof.
  unfold chgis.get_place_details, chgis.normalize_place_id. cbv zeta.
  rewrite fetch_then.
  replace (if negb (String.prefix "hvd_" place_id)
           then "hvd_" ++ place_id else place_id)
    with (if String.prefix "hvd_" place_id then place_id else "hvd_" ++ place_id)
    by (destruct (String.prefix "hvd_" place_id); reflexivity).
  fold (place_detail_request place_id).
  destruct (fetched (server w (place_detail_request place_id))) as [e|body].
  - rewrite handle_detail. eauto.
  - unfold try_except.
    match goal with |- context [handle ?c] => set (clauses := c) end.
    assert (Hcaught : forall e w', exists r,
               handle clauses e w' = (inr r, w') /\ error_object r).
    { intros e w'. subst clauses. rewrite handle_detail.
      eexists; split; [reflexivity | eexists; reflexivity]. }
    clearbody clauses.
    destruct body as [| | | | s |l|d]; msimpl.
    1-4: match goal with |- context [handle _ ?e ?w'] =>
           destruct (Hcaught e w') as [r [Hr Herr]] end;
         rewrite Hr; eauto.
    + case_cond; msimpl.
      * match goal with |- context [handle _ ?e ?w'] =>
          destruct (Hcaught e w') as [r [Hr Herr]] end.
        rewrite Hr; eauto.
      * eauto.
    + case_cond; msimpl.
      * match goal with |- context [handle _ ?e ?w'] =>
          destruct (Hcaught e w') as [r [Hr Herr]] end.
        rewrite Hr; eauto.
      * eauto.
    + destruct (dict_get d "source note"); msimpl; eauto.
Qed.

End ToolFacts.

(* ================================================================== *)
(** ** Properties of the tools *)
(* ================================================================== *)

Import Py httpx Spec PyFacts ToolFacts.

(** *** Shared lemmas *)

Lemma requests_after_get_place_details `{Interpreter} (place_id : string) (w : World) :
  requests_after (chgis.get_place_details place_id) w
  = (sent w ++ [place_detail_request place_id])%list.
Proof.
  unfold requests_after.
  destruct (get_place_details_run place_id w) as [r [Hrun _]].
  now rewrite Hrun.
Qed.

Lemma requests_after_search_historical_places `{Interpreter}
    (name : string) (year : option Z) (feature_type parent : option string)
    (start list_length : Z) (w : World) :
  requests_after
    (chgis.search_historical_places name year feature_type parent start list_length) w
  = (sent w ++ [placename_request name year feature_type parent])%list.
Proof.
  unfold requests_after. rewrite search_historical_places_run. cbv zeta.
  destruct (fetched _) as [e|results]; [reflexivity|].
  match goal with |- context [chgis.paginate results ?s ?n ?w'] =>
    destruct (paginate_any results s n w') as [res [Hres _]] end.
  rewrite Hres. now destruct res.
Qed.

Lemma get_place_details_failure `{Interpreter} (place_id : string) (w : World)
    (e : exception) :
  fetched (server w (place_detail_request place_id)) = inl e ->
  returned (chgis.get_place_details place_id) w = inr (error_dict (detail_message e)).
Proof.
  intros Hfetch. unfold returned.
  destruct (get_place_details_run place_id w) as [r [Hrun Hshape]].
  rewrite Hrun. rewrite Hfetch in Hshape. now subst r.
Qed.

Lemma detail_messages_differ `{Interpreter} (e1 e2 : exception) :
  category e1 <> category e2 -> detail_message e1 <> detail_message e2.
Proof.
  intros Hcat Heq. destruct e1, e2; cbn in Hcat, Heq;
    solve [ now apply Hcat | discriminate Heq ].
Qed.

Lemma json_dumps_payload
    (people_place : list Z) (place_type : list string) (use_date : Z)
    (date_type : option string) (date_start_time date_end_time : option Z)
    (dyn_start dyn_end : option Z) (use_xy start list_length : Z) :
  json_dumps (cbdb_addr_person.request_payload_of people_place place_type
                use_date date_type date_start_time date_end_time dyn_start
                dyn_end use_xy start list_length)
  = query_place_text people_place place_type use_date date_type
      date_start_time date_end_time dyn_start dyn_end use_xy start list_length.
Proof.
  unfold cbdb_addr_person.request_payload_of, query_place_text, member.
  cbn [json_dumps map fst snd]. rewrite !map_map.
  destruct date_type, date_start_time, date_end_time, dyn_start, dyn_end;
    reflexivity.
Qed.

Lemma paginated_dict_frame (d : dict) (page count pagination : value) :
  same_outside_pagination d (paginated_dict d page count pagination).
Proof.
  unfold same_outside_pagination, paginated_dict. eexists. split; [reflexivity|].
  intros k Hk. unfold pagination_key in Hk.
  apply Bool.orb_false_iff in Hk as [Hk Hk3].
  apply Bool.orb_false_iff in Hk as [Hk1 Hk2].
  rewrite String.eqb_sym in Hk1, Hk2, Hk3.
  now rewrite !dict_get_set_other.
Qed.

(** *** Gazetteer pagination *)

(** C1, as amended.  When the upstream body is an object whose placenames
    list [l] is not empty, and the call has [1 <= s] and [1 <= n],
    [search_historical_places] returns the body with: placenames replaced by
    the elements of [l] at the zero-based indices from [s-1] up to
    [min(s-1+n, L)] (none when [s > L]); the displayed count set to the length
    of that page, as text; and a pagination object with start [s], end
    [min(s + k - 1, L)] for a page of [k > 0] elements and [s] for an empty
    one, and total_pages the ceiling of [L / n]. *)
Theorem gazetteer_pagination_in_range `{Interpreter}
    (name : string) (year : option Z) (feature_type parent : option string)
    (s n : Z) (w : World) (d : dict) (l : list value) :
  fetched (server w (placename_request name year feature_type parent))
    = inr (VDict d) ->
  dict_get d "placenames" = Some (VList l) ->
  l <> [] -> 1 <= s -> 1 <= n ->
  exists r,
    returned (chgis.search_historical_places name year feature_type parent s n) w
      = inr r
    /\ paginated l s n r.
Proof.
  intros Hfetch Hget Hl Hs Hn. unfold returned.
  rewrite search_historical_places_run. cbv zeta. rewrite Hfetch.
  rewrite (paginate_list d l s n _ Hget Hl) by lia.
  eexists. split; [reflexivity|].
  unfold paginated, paginated_dict. cbv zeta. eexists. split; [reflexivity|].
  rewrite <- (python_page_is_page l s n) by lia.
  repeat split.
  - rewrite !dict_get_set_other by reflexivity. apply dict_get_set_same.
  - rewrite dict_get_set_other by reflexivity. apply dict_get_set_same.
  - rewrite dict_get_set_same. unfold pagination_of, ceil_div.
    now rewrite shifted_floor_is_ceiling by lia.
Qed.

(** The specification's first example: 25 results, start 11, page size 10. *)
Lemma gazetteer_pagination_in_range_example :
  exists r,
    returned
      (chgis.search_historical_places (H := cpython) "long" None None None 11 10)
      (answering (inr (ok_response (gazetteer_body (numbered 25))))) = inr r
    /\ paginated (numbered 25) 11 10 r.
Proof.
  apply (gazetteer_pagination_in_range (H := cpython) "long" None None None 11 10
           (answering (inr (ok_response (gazetteer_body (numbered 25)))))
           [ ("system", VStr "CHGIS");
             ("count of displayed results", VStr "25");
             ("placenames", VList (numbered 25)) ]
           (numbered 25)).
  - reflexivity.
  - reflexivity.
  - discriminate.
  - lia.
  - lia.
Defined.

(** C1 as stated fails outside that range: with an empty upstream list
    nothing is attached at all; with start 0 Python's slice counts from the
    end of the list; with a negative page size it stops short of the end;
    with page size 0 the division raises and an error object comes back. *)
Lemma gazetteer_pagination_out_of_range :
  (exists r,
     returned
       (chgis.search_historical_places (H := cpython) "long" None None None 1 10)
       (answering (inr (ok_response (gazetteer_body [])))) = inr r
     /\ ~ paginated [] 1 10 r)
  /\ (exists r,
        returned
          (chgis.search_historical_places (H := cpython) "long" None None None 0 10)
          (answering (inr (ok_response (gazetteer_body (numbered 5))))) = inr r
        /\ ~ paginated (numbered 5) 0 10 r)
  /\ (exists r,
        returned
          (chgis.search_historical_places (H := cpython) "long" None None None 1 (-1))
          (answering (inr (ok_response (gazetteer_body (numbered 3))))) = inr r
        /\ ~ paginated (numbered 3) 1 (-1) r)
  /\ (exists r,
        returned
          (chgis.search_historical_places (H := cpython) "long" None None None 1 0)
          (answering (inr (ok_response (gazetteer_body (numbered 3))))) = inr r
        /\ ~ paginated (numbered 3) 1 0 r).
Proof.
  repeat split.
  all: eexists; split; [vm_compute; reflexivity|].
  all: intros [d [Hr [Hpage [Hcount Hpag]]]]; injection Hr as <-.
  all: vm_compute in Hpage, Hcount, Hpag; discriminate.
Qed.

(** C10.  When the decoded body is an object without a placenames key, or
    with an empty placenames list, [search_historical_places] returns it
    unchanged, whatever start and list_length are: no pagination object, no
    recomputed count. *)
Theorem gazetteer_without_results_unchanged `{Interpreter}
    (name : string) (year : option Z) (feature_type parent : option string)
    (start list_length : Z) (w : World) (d : dict) :
  fetched (server w (placename_request name year feature_type parent))
    = inr (VDict d) ->
  dict_get d "placenames" = None \/ dict_get d "placenames" = Some (VList []) ->
  returned (chgis.search_historical_places name year feature_type parent start
              list_length) w
  = inr (VDict d).
Proof.
  intros Hfetch Hempty. unfold returned.
  rewrite search_historical_places_run. cbv zeta. rewrite Hfetch.
  rewrite paginate_nothing; [reflexivity|].
  destruct Hempty as [Hnone | Hnil]; [now left | right].
  exists (VList []). now split.
Qed.

Lemma gazetteer_without_results_example :
  returned
    (chgis.search_historical_places (H := cpython) "nowhere" None None None 3 0)
    (answering (inr (ok_response (gazetteer_body []))))
  = inr (gazetteer_body []).
Proof.
  apply (gazetteer_without_results_unchanged (H := cpython) "nowhere" None None
           None 3 0 (answering (inr (ok_response (gazetteer_body []))))
           [ ("system", VStr "CHGIS");
             ("count of displayed results", VStr "0");
             ("placenames", VList []) ]).
  - reflexivity.
  - right. reflexivity.
Defined.

(** *** Totality and the shape of results *)







(** *** Requests *)

(** C3.  [get_place_details] requests the detail path of the normalized
    identifier: the identifier itself when it starts with hvd_, the
    identifier with hvd_ put in front otherwise; normalizing twice is
    normalizing once; 80547 becomes hvd_80547, which stays as it is. *)
Theorem place_detail_identifier_normalized `{Interpreter} :
  (forall place_id w,
     requests_after (chgis.get_place_details place_id) w
     = (sent w ++ [GET ("http://tgaz.fudan.edu.cn/tgaz/placename/json/"
                      ++ chgis.normalize_place_id place_id) None])%list)
  /\ (forall place_id,
        chgis.normalize_place_id place_id
        = if String.prefix "hvd_" place_id then place_id else "hvd_" ++ place_id)
  /\ (forall place_id,
        chgis.normalize_place_id (chgis.normalize_place_id place_id)
        = chgis.normalize_place_id place_id)
  /\ chgis.normalize_place_id "80547" = "hvd_80547"
  /\ chgis.normalize_place_id "hvd_80547" = "hvd_80547".
Proof.
  assert (Hnorm : forall place_id,
            chgis.normalize_place_id place_id
            = if String.prefix "hvd_" place_id then place_id else "hvd_" ++ place_id).
  { intros place_id. unfold chgis.normalize_place_id.
    now destruct (String.prefix "hvd_" place_id). }
  split; [|split; [exact Hnorm|split; [|split; reflexivity]]].
  - intros place_id w. rewrite requests_after_get_place_details.
    unfold place_detail_request. now rewrite Hnorm.
  - intros place_id. rewrite (Hnorm place_id).
    destruct (String.prefix "hvd_" place_id) eqn:E.
    + now rewrite Hnorm, E.
    + rewrite Hnorm.
      replace (String.prefix "hvd_" ("hvd_" ++ place_id)) with true; [reflexivity|].
      cbn. repeat (destruct (ascii_dec _ _); [|congruence]). now destruct place_id.
Qed.

(** C4.  The location search sends name, accurate, start and list, and
    startTime (endTime) exactly when the caller gave it; the gazetteer search
    sends fmt=json and n, and yr, ftyp, p exactly when year, feature_type,
    parent were given.  The keys listed are all the keys there are, and
    neither URL has a question mark in it, so a parameter that was left out
    appears nowhere in the request. *)
Theorem optional_parameters_omitted `{Interpreter} :
  (forall name accurate startTime endTime start list_length w,
     exists params,
       requests_after
         (cbdb_addr.search_places_under_location name accurate startTime endTime
            start list_length) w
       = (sent w ++ [GET "https://input.cbdb.fas.harvard.edu/api/place_list"
                      (Some params)])%list
       /\ dict_keys params
          = ([ "name"; "accurate"; "start"; "list" ]
             ++ given "startTime" startTime ++ given "endTime" endTime)%list
       /\ dict_get params "name" = Some (VStr name)
       /\ dict_get params "accurate" = Some (VInt accurate)
       /\ dict_get params "start" = Some (VInt start)
       /\ dict_get params "list" = Some (VInt list_length)
       /\ dict_get params "startTime" = option_map VInt startTime
       /\ dict_get params "endTime" = option_map VInt endTime)
  /\ (forall name year feature_type parent start list_length w,
        exists params,
          requests_after
            (chgis.search_historical_places name year feature_type parent start
               list_length) w
          = (sent w ++ [GET "http://tgaz.fudan.edu.cn/tgaz/placename"
                         (Some params)])%list
          /\ dict_keys params
             = ([ "fmt"; "n" ]
                ++ given "yr" year ++ given "ftyp" feature_type
                ++ given "p" parent)%list
          /\ dict_get params "fmt" = Some (VStr "json")
          /\ dict_get params "n" = Some (VStr name)
          /\ dict_get params "yr" = option_map VInt year
          /\ dict_get params "ftyp" = option_map VStr feature_type
          /\ dict_get params "p" = option_map VStr parent)
  /\ after_question_mark "https://input.cbdb.fas.harvard.edu/api/place_list" = None
  /\ after_question_mark "http://tgaz.fudan.edu.cn/tgaz/placename" = None.
Proof.
  split; [|split; [|split; reflexivity]].
  - intros. unfold requests_after.
    rewrite search_places_under_location_run. cbn [snd sent].
    unfold place_list_request.
    eexists. split; [reflexivity|].
    destruct startTime, endTime; repeat split; reflexivity.
  - intros. rewrite requests_after_search_historical_places.
    unfold placename_request.
    eexists. split; [reflexivity|].
    destruct year, feature_type, parent; repeat split; reflexivity.
Qed.

(** X13.  For every call, [query_people_by_place] builds one payload with
    all eleven fields, in order, an optional field that was left out being
    None; serializes it with json.dumps, where None is written null; and
    sends one GET whose URL is the endpoint, a question mark, RequestPayload=
    and that text, character for character, with no params and no body. *)
Theorem place_person_payload_sent_with_nulls `{Interpreter}
    (people_place : list Z) (place_type : list string) (use_date : Z)
    (date_type : option string) (date_start_time date_end_time : option Z)
    (dyn_start dyn_end : option Z) (use_xy start list_length : Z) (w : World) :
  exists payload items text url,
    payload = VDict items
    /\ dict_keys items
       = [ "peoplePlace"; "placeType"; "useDate"; "dateType"; "dateStartTime";
           "dateEndTime"; "dynStart"; "dynEnd"; "useXy"; "start"; "list" ]
    /\ dict_get items "peoplePlace" = Some (VList (map VInt people_place))
    /\ dict_get items "placeType" = Some (VList (map VStr place_type))
    /\ dict_get items "useDate" = Some (VInt use_date)
    /\ dict_get items "dateType" = Some (optional VStr date_type)
    /\ dict_get items "dateStartTime" = Some (optional VInt date_start_time)
    /\ dict_get items "dateEndTime" = Some (optional VInt date_end_time)
    /\ dict_get items "dynStart" = Some (optional VInt dyn_start)
    /\ dict_get items "dynEnd" = Some (optional VInt dyn_end)
    /\ dict_get items "useXy" = Some (VInt use_xy)
    /\ dict_get items "start" = Some (VInt start)
    /\ dict_get items "list" = Some (VInt list_length)
    /\ text = json_dumps payload
    /\ text = query_place_text people_place place_type use_date date_type
                date_start_time date_end_time dyn_start dyn_end use_xy start
                list_length
    /\ url = "https://input.cbdb.fas.harvard.edu/api/query_place?RequestPayload="
             ++ text
    /\ after_question_mark url = Some ("RequestPayload=" ++ text)
    /\ requests_after
         (cbdb_addr_person.query_people_by_place people_place place_type
            use_date date_type date_start_time date_end_time dyn_start dyn_end
            use_xy start list_length) w
       = (sent w ++ [ {| req_method := "GET"; req_url := url;
                         req_params := None |} ])%list.
Proof.
  exists (cbdb_addr_person.request_payload_of people_place place_type use_date
            date_type date_start_time date_end_time dyn_start dyn_end use_xy
            start list_length).
  eexists. eexists. eexists.
  split; [reflexivity|].
  do 12 (split; [reflexivity|]).
  split; [reflexivity|].
  split; [apply json_dumps_payload|].
  split; [reflexivity|].
  split; [reflexivity|].
  unfold requests_after. rewrite query_people_by_place_run. reflexivity.
Qed.

(** *** The payload as a query parameter *)

Lemma has_char_app (c : ascii) (a b : string) :
  has_char c (a ++ b) = has_char c a || has_char c b.
Proof.
  induction a as [|x a IH]; [reflexivity|].
  cbn [append has_char]. now rewrite IH, orb_assoc.
Qed.

Lemma plain_app (a b : string) : plain (a ++ b) = plain a && plain b.
Proof.
  unfold plain. rewrite !has_char_app.
  destruct (has_char "&" a), (has_char "&" b), (has_char "#" a), (has_char "#" b);
    reflexivity.
Qed.

Lemma plain_concat (sep : string) (l : list string) :
  plain sep = true -> forallb plain l = true -> plain (String.concat sep l) = true.
Proof.
  intros Hsep Hl. induction l as [|s l IH]; [reflexivity|].
  cbn [forallb] in Hl. apply andb_prop in Hl as [Hs Hl].
  destruct l as [|s' l]; [exact Hs|].
  change (String.concat sep (s :: s' :: l))
    with (s ++ sep ++ String.concat sep (s' :: l)).
  now rewrite !plain_app, Hs, Hsep, IH.
Qed.

Lemma forallb_map {A B : Type} (f : A -> B) (p : B -> bool) (l : list A) :
  forallb p (map f l) = forallb (fun a => p (f a)) l.
Proof. induction l as [|a l IH]; [reflexivity|]. cbn. now rewrite IH. Qed.

(** Escaping writes an ampersand or a number sign only for one it reads. *)
Lemma has_char_escape_char (c : ascii) :
  has_char "&" (escape_char c) = Ascii.eqb c "&"
  /\ has_char "#" (escape_char c) = Ascii.eqb c "#".
Proof.
  destruct c as [[] [] [] [] [] [] [] []]; split; reflexivity.
Qed.

Lemma has_char_escape_string (s : string) :
  has_char "&" (escape_string s) = has_char "&" s
  /\ has_char "#" (escape_string s) = has_char "#" s.
Proof.
  induction s as [|c s [IH1 IH2]]; [split; reflexivity|].
  cbn [escape_string has_char]. rewrite !has_char_app, IH1, IH2.
  destruct (has_char_escape_char c) as [-> ->]. split; reflexivity.
Qed.

Lemma plain_dumps_str (s : string) : plain s = true -> plain (dumps_str s) = true.
Proof.
  unfold plain, dumps_str. rewrite !has_char_app.
  destruct (has_char_escape_string s) as [-> ->].
  cbn [dquote has_char Ascii.eqb Bool.eqb orb]. now rewrite !orb_false_r.
Qed.

Lemma plain_uint (u : Decimal.uint) : plain (NilEmpty.string_of_uint u) = true.
Proof. induction u; cbn [NilEmpty.string_of_uint]; auto. Qed.

(** A number is written with digits and a sign. *)
Lemma plain_str_int (n : Z) : plain (str_int n) = true.
Proof.
  unfold str_int, NilZero.string_of_int, NilZero.string_of_uint.
  destruct (Z.to_int n) as [u|u].
  - destruct u; try reflexivity;
      match goal with |- plain (NilEmpty.string_of_uint ?d) = true =>
        apply (plain_uint d) end.
  - change (plain (NilZero.string_of_uint u) = true).
    unfold NilZero.string_of_uint.
    destruct u; try reflexivity;
      match goal with |- plain (NilEmpty.string_of_uint ?d) = true =>
        apply (plain_uint d) end.
Qed.

Lemma plain_query_place_text
    (people_place : list Z) (place_type : list string) (use_date : Z)
    (date_type : option string) (date_start_time date_end_time : option Z)
    (dyn_start dyn_end : option Z) (use_xy start list_length : Z) :
  forallb plain place_type = true -> plain_option date_type = true ->
  plain (query_place_text people_place place_type use_date date_type
           date_start_time date_end_time dyn_start dyn_end use_xy start
           list_length) = true.
Proof.
  intros Htags Hdate. unfold query_place_text.
  assert (Hmember : forall k text, plain k = true -> plain text = true ->
            plain (member k text) = true).
  { intros k text Hk Htext. unfold member. now rewrite !plain_app, Hk, Htext. }
  assert (Hnull : forall x, plain (null_or str_int x) = true)
    by (intros [n|]; [apply plain_str_int | reflexivity]).
  rewrite !plain_app. apply andb_true_intro. split; [reflexivity|].
  apply andb_true_intro. split; [|reflexivity].
  apply plain_concat; [reflexivity|].
  cbn [forallb]. rewrite !Hmember; try reflexivity; auto using plain_str_int.
  - destruct date_type as [t|]; [now apply plain_dumps_str | reflexivity].
  - rewrite !plain_app. cbn [andb]. rewrite plain_concat; [reflexivity..|].
    rewrite forallb_map. apply forallb_forall. intros t Ht.
    apply plain_dumps_str. now apply (proj1 (forallb_forall _ _) Htags).
  - rewrite !plain_app. rewrite plain_concat; [reflexivity..|].
    rewrite forallb_map. apply forallb_forall. intros n _. apply plain_str_int.
Qed.

Lemma before_char_absent (c : ascii) (s : string) :
  has_char c s = false -> before_char c s = s.
Proof.
  induction s as [|a s IH]; [reflexivity|]. cbn [has_char before_char].
  intros H. apply orb_false_iff in H as [-> H]. now rewrite IH.
Qed.

Lemma split_on_absent (c : ascii) (s : string) :
  has_char c s = false -> split_on c s = [s].
Proof.
  induction s as [|a s IH]; [reflexivity|]. cbn [has_char split_on].
  intros H. apply orb_false_iff in H as [-> H]. now rewrite IH.
Qed.

Lemma query_parameters_of_payload (text : string) :
  plain text = true ->
  query_parameters
    ("https://input.cbdb.fas.harvard.edu/api/query_place?RequestPayload=" ++ text)
  = [("RequestPayload", text)].
Proof.
  intros Hplain. unfold plain in Hplain.
  apply andb_prop in Hplain as [Hamp Hhash].
  apply negb_true_iff in Hamp, Hhash.
  unfold query_parameters.
  rewrite before_char_absent by (rewrite has_char_app; now rewrite Hhash).
  change (after_question_mark
            ("https://input.cbdb.fas.harvard.edu/api/query_place?RequestPayload="
             ++ text))
    with (Some ("RequestPayload=" ++ text)).
  cbv beta iota.
  rewrite split_on_absent by (rewrite has_char_app; now rewrite Hamp).
  reflexivity.
Qed.

(** X14.  When no place type and no date type has an ampersand or a number
    sign in it, the query string of the URL [query_people_by_place] requests
    has exactly one parameter, RequestPayload, and its value as written is
    the whole serialized payload. *)
Theorem place_person_payload_is_one_parameter `{Interpreter}
    (people_place : list Z) (place_type : list string) (use_date : Z)
    (date_type : option string) (date_start_time date_end_time : option Z)
    (dyn_start dyn_end : option Z) (use_xy start list_length : Z) (w : World) :
  forallb plain place_type = true -> plain_option date_type = true ->
  exists text url,
    text = json_dumps (cbdb_addr_person.request_payload_of people_place place_type
                         use_date date_type date_start_time date_end_time
                         dyn_start dyn_end use_xy start list_length)
    /\ requests_after
         (cbdb_addr_person.query_people_by_place people_place place_type
            use_date date_type date_start_time date_end_time dyn_start dyn_end
            use_xy start list_length) w
       = (sent w ++ [GET url None])%list
    /\ query_parameters url = [("RequestPayload", text)].
Proof.
  intros Htags Hdate. eexists. eexists. split; [reflexivity|].
  split.
  - unfold requests_after. rewrite query_people_by_place_run. reflexivity.
  - apply query_parameters_of_payload. rewrite json_dumps_payload.
    now apply plain_query_place_text.
Qed.

(** The call of the function's own documentation. *)
Lemma place_person_payload_is_one_parameter_example :
  exists text url,
    text = json_dumps (cbdb_addr_person.request_payload_of
                         [2928; 10522; 12553; 13947; 13949]
                         ["individual"; "entry"; "officePosting"] 1
                         (Some "dynasty") None None (Some 17) (Some 22) 0 1 50)
    /\ requests_after
         (cbdb_addr_person.query_people_by_place (H := cpython)
            [2928; 10522; 12553; 13947; 13949]
            ["individual"; "entry"; "officePosting"] 1
            (Some "dynasty") None None (Some 17) (Some 22) 0 1 50)
         (answering (inr (ok_response (VDict []))))
       = ([] ++ [GET url None])%list
    /\ query_parameters url = [("RequestPayload", text)].
Proof.
  apply (place_person_payload_is_one_parameter (H := cpython)
           [2928; 10522; 12553; 13947; 13949]
           ["individual"; "entry"; "officePosting"] 1
           (Some "dynasty") None None (Some 17) (Some 22) 0 1 50
           (answering (inr (ok_response (VDict []))))).
  - reflexivity.
  - reflexivity.
Defined.

(** C5.  The last step of the claim fails on the code: the serialized text
    goes into the URL as it is, where an ampersand ends a parameter and a
    number sign ends the query.  With the place type R&D the query has two
    parameters, and RequestPayload holds the text up to the ampersand only;
    with the place type a#b RequestPayload holds the text up to the number
    sign, and what follows is not part of the query at all.  In neither call
    is the serialized payload the value of the parameter. *)
Theorem place_person_payload_cut_at_delimiters :
  (exists text url first second,
     text = json_dumps (cbdb_addr_person.request_payload_of [2928] ["R&D"] 0 None
                          None None None None 0 1 50)
     /\ requests_after
          (cbdb_addr_person.query_people_by_place (H := cpython) [2928] ["R&D"] 0
             None None None None None 0 1 50)
          (answering (inr (ok_response (VDict []))))
        = [GET url None]
     /\ query_parameters url = [("RequestPayload", first); second]
     /\ text = first ++ "&" ++ fst second
     /\ query_parameters url <> [("RequestPayload", text)])
  /\ (exists text url kept lost,
        text = json_dumps (cbdb_addr_person.request_payload_of [2928] ["a#b"] 0
                             None None None None None 0 1 50)
        /\ requests_after
             (cbdb_addr_person.query_people_by_place (H := cpython) [2928] ["a#b"]
                0 None None None None None 0 1 50)
             (answering (inr (ok_response (VDict []))))
           = [GET url None]
        /\ query_parameters url = [("RequestPayload", kept)]
        /\ text = kept ++ "#" ++ lost
        /\ query_parameters url <> [("RequestPayload", text)]).
Proof.
  split.
  - do 4 eexists. split; [reflexivity|].
    split; [vm_compute; reflexivity|].
    split; [vm_compute; reflexivity|].
    split; [vm_compute; reflexivity|].
    vm_compute. discriminate.
  - do 4 eexists. split; [reflexivity|].
    split; [vm_compute; reflexivity|].
    split; [vm_compute; reflexivity|].
    split; [vm_compute; reflexivity|].
    vm_compute. discriminate.
Qed.

(** *** Errors *)

(** C6.  [get_place_details] turns each failure category into a message of
    its own: a transport failure, an HTTP error status, a decoding failure
    and anything else get four templates, no two of which can produce the
    same text; the message for an HTTP error status ends with the status
    code, so it contains it. *)
Theorem place_detail_error_categories `{Interpreter} (place_id : string) (w : World) :
  let req := place_detail_request place_id in
  let result := returned (chgis.get_place_details place_id) w in
  (forall m, server w req = inl (RequestError m) ->
     result = inr (error_dict ("API request failed: " ++ m)))
  /\ (forall resp, server w req = inr resp ->
        is_success (status_code resp) = false ->
        result = inr (error_dict ("HTTP error status: " ++ str_int (status_code resp)))
        /\ str_contains (str_int (status_code resp))
             ("HTTP error status: " ++ str_int (status_code resp)) = true)
  /\ (forall resp m, server w req = inr resp ->
        is_success (status_code resp) = true ->
        decoded resp = inl (ValueError m) ->
        result = inr (error_dict ("Invalid response format: " ++ m)))
  /\ (forall e, fetched (server w req) = inl e ->
        category e = Unexpected ->
        result = inr (error_dict ("An unexpected error occurred: " ++ str_exc e)))
  /\ (forall e1 e2, category e1 <> category e2 ->
        detail_message e1 <> detail_message e2).
Proof.
  cbv zeta. repeat split.
  - intros m Hserver. apply (get_place_details_failure place_id w (RequestError m)).
    unfold fetched. now rewrite Hserver.
  - match goal with
    | Hserver : server w _ = inr ?resp, Hstatus : is_success _ = false |- _ =>
        apply (get_place_details_failure place_id w
                 (HTTPStatusError (status_text resp) (status_code resp)));
        unfold fetched; now rewrite Hserver, Hstatus
    end.
  - apply str_contains_suffix.
  - intros resp m Hserver Hok Hdecoded.
    apply (get_place_details_failure place_id w (ValueError m)).
    unfold fetched. now rewrite Hserver, Hok.
  - intros e Hfetch Hcat. rewrite (get_place_details_failure place_id w e Hfetch).
    destruct e; try discriminate Hcat; reflexivity.
  - apply detail_messages_differ.
Qed.

(** A 404 on the place-detail lookup. *)
Lemma place_detail_404 :
  returned (chgis.get_place_details (H := cpython) "80547")
    (answering (inr (status_response 404)))
  = inr (error_dict "HTTP error status: 404")
  /\ str_contains "404" "HTTP error status: 404" = true.
Proof.
  exact (proj1 (proj2 (place_detail_error_categories (H := cpython) "80547"
                         (answering (inr (status_response 404)))))
           (status_response 404) eq_refl eq_refl).
Defined.

(** C7.  When the request fails at the transport level with message [m],
    each tool returns the error object whose message is API request failed,
    a colon, a space and [m]; nothing is raised. *)
Theorem transport_failure_is_reported `{Interpreter} (m : string) :
  (forall name accurate startTime endTime start list_length w,
     server w (place_list_request name accurate startTime endTime start list_length)
       = inl (RequestError m) ->
     returned (cbdb_addr.search_places_under_location name accurate startTime
                 endTime start list_length) w
     = inr (error_dict ("API request failed: " ++ m)))
  /\ (forall name accurate startTime endTime start list_length w,
        server w (place_list_request name accurate startTime endTime start list_length)
          = inl (RequestError m) ->
        returned (cbdb_addr_person.search_places_under_location name accurate
                    startTime endTime start list_length) w
        = inr (error_dict ("API request failed: " ++ m)))
  /\ (forall people_place place_type use_date date_type date_start_time
             date_end_time dyn_start dyn_end use_xy start list_length w,
        server w (query_place_request people_place place_type use_date date_type
                    date_start_time date_end_time dyn_start dyn_end use_xy start
                    list_length)
          = inl (RequestError m) ->
        returned (cbdb_addr_person.query_people_by_place people_place place_type
                    use_date date_type date_start_time date_end_time dyn_start
                    dyn_end use_xy start list_length) w
        = inr (error_dict ("API request failed: " ++ m)))
  /\ (forall name year feature_type parent start list_length w,
        server w (placename_request name year feature_type parent)
          = inl (RequestError m) ->
        returned (chgis.search_historical_places name year feature_type parent
                    start list_length) w
        = inr (error_dict ("API request failed: " ++ m)))
  /\ (forall place_id w,
        server w (place_detail_request place_id) = inl (RequestError m) ->
        returned (chgis.get_place_details place_id) w
        = inr (error_dict ("API request failed: " ++ m))).
Proof.
  unfold returned.
  repeat split; intros;
    match goal with Hserver : server _ _ = inl (RequestError m) |- _ =>
      first
        [ rewrite search_places_under_location_run
        | rewrite search_places_under_location_copy_run
        | rewrite query_people_by_place_run
        | rewrite search_historical_places_run
        | apply (get_place_details_failure _ _ (RequestError m)) ];
      unfold fetched; now rewrite Hserver
    end.
Qed.

(** A refused connection on the gazetteer search. *)
Lemma transport_failure_example :
  returned
    (chgis.search_historical_places (H := cpython) "long" (Some 800) None None 1 10)
    (answering (inl (RequestError "All connection attempts failed")))
  = inr (error_dict "API request failed: All connection attempts failed").
Proof.
  exact (proj1 (proj2 (proj2 (proj2
           (transport_failure_is_reported (H := cpython)
              "All connection attempts failed"))))
           "long" (Some 800) None None 1 10
           (answering (inl (RequestError "All connection attempts failed")))
           eq_refl).
Defined.

(** *** Pass-through *)

(** C8, as amended.  For a successful upstream response: the location search
    (either copy) and the place-person search return the decoded body as it
    is; [get_place_details] returns a decoded object as it is, whatever its
    source note holds; [search_historical_places], given an object whose
    placenames is missing or a list and a page size other than 0, returns an
    object that agrees with the body on every key other than placenames,
    count of displayed results and pagination. *)
Theorem success_passes_through `{Interpreter} :
  (forall name accurate startTime endTime start list_length w body,
     fetched (server w (place_list_request name accurate startTime endTime
                          start list_length)) = inr body ->
     returned (cbdb_addr.search_places_under_location name accurate startTime
                 endTime start list_length) w = inr body
     /\ returned (cbdb_addr_person.search_places_under_location name accurate
                    startTime endTime start list_length) w = inr body)
  /\ (forall people_place place_type use_date date_type date_start_time
             date_end_time dyn_start dyn_end use_xy start list_length w body,
        fetched (server w (query_place_request people_place place_type use_date
                             date_type date_start_time date_end_time dyn_start
                             dyn_end use_xy start list_length)) = inr body ->
        returned (cbdb_addr_person.query_people_by_place people_place place_type
                    use_date date_type date_start_time date_end_time dyn_start
                    dyn_end use_xy start list_length) w = inr body)
  /\ (forall place_id w d,
        fetched (server w (place_detail_request place_id)) = inr (VDict d) ->
        returned (chgis.get_place_details place_id) w = inr (VDict d))
  /\ (forall name year feature_type parent start list_length w d,
        fetched (server w (placename_request name year feature_type parent))
          = inr (VDict d) ->
        list_length <> 0 ->
        dict_get d "placenames" = None
        \/ (exists l, dict_get d "placenames" = Some (VList l)) ->
        exists r,
          returned (chgis.search_historical_places name year feature_type parent
                      start list_length) w = inr r
          /\ same_outside_pagination d r).
Proof.
  unfold returned. split; [|split; [|split]].
  - intros name accurate startTime endTime start list_length w body Hfetch.
    rewrite search_places_under_location_run,
      search_places_under_location_copy_run.
    cbn [fst]. now rewrite Hfetch.
  - intros people_place place_type use_date date_type date_start_time
      date_end_time dyn_start dyn_end use_xy start list_length w body Hfetch.
    rewrite query_people_by_place_run. cbn [fst]. now rewrite Hfetch.
  - intros place_id w d Hfetch.
    destruct (get_place_details_run place_id w) as [r [Hrun Hshape]].
    rewrite Hrun. rewrite Hfetch in Hshape. now subst r.
  - intros name year feature_type parent start list_length w d Hfetch Hn Hplaces.
    rewrite search_historical_places_run. cbv zeta. rewrite Hfetch.
    assert (Hsame : same_outside_pagination d (VDict d))
      by (eexists; split; reflexivity).
    destruct Hplaces as [Hnone | [[|x l] Hlist]].
    + rewrite paginate_nothing by now left.
      exists (VDict d). split; [reflexivity | exact Hsame].
    + rewrite paginate_nothing by (right; eexists; split; [eassumption|reflexivity]).
      exists (VDict d). split; [reflexivity | exact Hsame].
    + rewrite (paginate_list d (x :: l) start list_length _ Hlist) by
        (discriminate || assumption).
      eexists. split; [reflexivity | apply paginated_dict_frame].
Qed.

(** A detail record whose source note is a broken fragment of JSON. *)
Lemma success_passes_through_example :
  returned (chgis.get_place_details (H := cpython) "hvd_80547")
    (answering (inr (ok_response
       (VDict [ ("sys_id", VStr "hvd_80547");
                ("source note", VStr "{'note': 'Tengchong Fu, ") ]))))
  = inr (VDict [ ("sys_id", VStr "hvd_80547");
                 ("source note", VStr "{'note': 'Tengchong Fu, ") ]).
Proof.
  apply (proj1 (proj2 (proj2 (success_passes_through (H := cpython))))
           "hvd_80547"
           (answering (inr (ok_response
              (VDict [ ("sys_id", VStr "hvd_80547");
                       ("source note", VStr "{'note': 'Tengchong Fu, ") ]))))
           [ ("sys_id", VStr "hvd_80547");
             ("source note", VStr "{'note': 'Tengchong Fu, ") ]).
  reflexivity.
Defined.

(** C8 as stated fails: with page size 0 the gazetteer search answers a
    successful response that has results with an error object, in which the
    fields of the body are gone; and the place-detail lookup answers a
    successful response whose body is null with an error object. *)
Lemma success_not_always_passed_through :
  (exists r,
     returned
       (chgis.search_historical_places (H := cpython) "long" None None None 1 0)
       (answering (inr (ok_response (gazetteer_body (numbered 3))))) = inr r
     /\ error_object r
     /\ dict_get [ ("system", VStr "CHGIS");
                   ("count of displayed results", VStr "3");
                   ("placenames", VList (numbered 3)) ] "system"
        = Some (VStr "CHGIS")
     /\ ~ same_outside_pagination
          [ ("system", VStr "CHGIS");
            ("count of displayed results", VStr "3");
            ("placenames", VList (numbered 3)) ] r)
  /\ (exists r,
        returned (chgis.get_place_details (H := cpython) "hvd_80547")
          (answering (inr (ok_response VNone))) = inr r
        /\ error_object r /\ r <> VNone).
Proof.
  split.
  - eexists. split; [vm_compute; reflexivity|].
    split; [eexists; reflexivity|]. split; [reflexivity|].
    intros [d' [Hr Hsame]]. injection Hr as <-.
    specialize (Hsame "system" eq_refl). discriminate Hsame.
  - eexists. split; [vm_compute; reflexivity|].
    split; [eexists; reflexivity | discriminate].
Qed.

(** *** The duplicated location search *)

(** C9.  The location search of cbdb_addr and the one of cbdb_addr_person
    are the same function: on the same arguments and in the same world they
    make the same request and return the same result. *)
Theorem location_search_copies_agree `{Interpreter}
    (name : string) (accurate : Z) (startTime endTime : option Z)
    (start list_length : Z) (w : World) :
  cbdb_addr.search_places_under_location name accurate startTime endTime start
    list_length w
  = cbdb_addr_person.search_places_under_location name accurate startTime endTime
      start list_length w.
Proof.
  now rewrite search_places_under_location_run,
    search_places_under_location_copy_run.
Qed.

(* ================================================================== *)
(** ** Further properties of the tools *)
(* ================================================================== *)

(** *** Lists, slices and dictionaries *)

Lemma firstn_add {A : Type} (a b : nat) (l : list A) :
  firstn (a + b) l = (firstn a l ++ firstn b (skipn a l))%list.
Proof.
  revert l. induction a as [|a IH]; intros [|x l]; simpl; auto.
  - now rewrite firstn_nil.
  - now rewrite IH.
Qed.

(** Consecutive runs of [n] elements, put end to end. *)
Lemma chunks_firstn {A : Type} (l : list A) (n m : nat) :
  flat_map (fun i => firstn n (skipn (i * n) l)) (seq 0 m) = firstn (m * n) l.
Proof.
  induction m as [|m IH]; [reflexivity|].
  rewrite seq_S, flat_map_app, IH. cbn [flat_map Nat.add].
  rewrite app_nil_r, <- firstn_add. f_equal. lia.
Qed.

Lemma flat_map_ext_in {A B : Type} (f g : A -> list B) (l : list A) :
  (forall a, In a l -> f a = g a) -> flat_map f l = flat_map g l.
Proof.
  intros Hfg. rewrite !flat_map_concat_map. f_equal. now apply map_ext_in.
Qed.

Lemma skipn_last {A : Type} (l : list A) (x : A) :
  l <> [] -> skipn (List.length l - 1) l = [last l x].
Proof.
  induction l as [|a l IH]; [contradiction|]. intros _.
  destruct l as [|b l]; [reflexivity|].
  replace (List.length (a :: b :: l) - 1)%nat with (S (List.length (b :: l) - 1))
    by (simpl; lia).
  cbn [skipn]. rewrite IH by discriminate. reflexivity.
Qed.

(** Whatever the bounds, a slice is a run of neighbours of the list. *)
Lemma slice_list_window {A : Type} (l : list A) (lo hi : Z) :
  exists before after, l = (before ++ slice_list l lo hi ++ after)%list.
Proof.
  unfold slice_list. cbv zeta.
  set (a := Z.to_nat (adjust_index _ lo)). set (k := Z.to_nat _).
  exists (firstn a l), (skipn k (skipn a l)).
  now rewrite firstn_skipn, firstn_skipn.
Qed.

Lemma slice_list_length {A : Type} (l : list A) (lo hi : Z) :
  Z.of_nat (List.length (slice_list l lo hi))
  = Z.max 0 (Z.min (adjust_index (Z.of_nat (List.length l)) hi
                    - adjust_index (Z.of_nat (List.length l)) lo)
                   (Z.of_nat (List.length l)
                    - adjust_index (Z.of_nat (List.length l)) lo)).
Proof.
  unfold slice_list. cbv zeta. rewrite length_firstn, length_skipn.
  unfold adjust_index. destruct (lo <? 0) eqn:E1, (hi <? 0) eqn:E2; lia.
Qed.

Lemma python_page_window {A : Type} (l : list A) (s n : Z) :
  exists before after, l = (before ++ python_page l s n ++ after)%list.
Proof.
  unfold python_page. destruct (s <=? _).
  - apply slice_list_window.
  - exists l, []. now rewrite !app_nil_r.
Qed.

Lemma python_page_length_le {A : Type} (l : list A) (s n : Z) :
  0 < n -> Z.of_nat (List.length (python_page l s n)) <= n.
Proof.
  intros Hn. unfold python_page. destruct (s <=? _); [|simpl; lia].
  rewrite slice_list_length. unfold adjust_index.
  destruct (s - 1 <? 0) eqn:E1, (s - 1 + n <? 0) eqn:E2; lia.
Qed.

Lemma python_page_in_range {A : Type} (l : list A) (s n : Z) :
  1 <= s <= Z.of_nat (List.length l) -> 0 <= n ->
  python_page l s n = firstn (Z.to_nat n) (skipn (Z.to_nat (s - 1)) l).
Proof.
  intros Hs Hn. unfold python_page.
  replace (s <=? Z.of_nat (List.length l)) with true by (symmetry; apply Z.leb_le; lia).
  unfold slice_list. cbv zeta. rewrite !adjust_index_inside by lia.
  replace (Z.min (s - 1) (Z.of_nat (List.length l))) with (s - 1) by lia.
  destruct (Z.le_ge_cases (s - 1 + n) (Z.of_nat (List.length l))).
  - f_equal. lia.
  - rewrite !firstn_all2; try reflexivity; rewrite length_skipn; lia.
Qed.

(** With start 0 the lower bound of the slice is -1, the last position. *)
Lemma python_page_from_zero {A : Type} (l : list A) (n : Z) (x : A) :
  l <> [] -> 1 <= n ->
  python_page l 0 n = if Z.of_nat (List.length l) <? n then [last l x] else [].
Proof.
  intros Hl Hn. unfold python_page.
  assert (HL : 1 <= Z.of_nat (List.length l))
    by (destruct l; [contradiction | simpl List.length; lia]).
  replace (0 <=? Z.of_nat (List.length l)) with true by (symmetry; apply Z.leb_le; lia).
  unfold slice_list. cbv zeta.
  assert (Hlo : adjust_index (Z.of_nat (List.length l)) (0 - 1)
                = Z.of_nat (List.length l) - 1)
    by (unfold adjust_index; change (0 - 1 <? 0) with true; lia).
  rewrite Hlo, (adjust_index_inside _ (0 - 1 + n)) by lia.
  replace (Z.to_nat (Z.of_nat (List.length l) - 1))
    with (List.length l - 1)%nat by lia.
  rewrite (skipn_last l x Hl).
  destruct (Z.of_nat (List.length l) <? n) eqn:E.
  - apply Z.ltb_lt in E.
    replace (Z.to_nat _) with 1%nat by lia. reflexivity.
  - apply Z.ltb_ge in E.
    replace (Z.to_nat _) with 0%nat by lia. reflexivity.
Qed.

(** The pages that start at 1, 1 + n, 1 + 2n, ..., as many as the shifted
    division counts, are the list. *)
Lemma pages_of_list {A : Type} (l : list A) (n : Z) :
  l <> [] -> 1 <= n ->
  flat_map (fun i => python_page l (1 + Z.of_nat i * n) n)
    (seq 0 (Z.to_nat ((Z.of_nat (List.length l) + n - 1) / n)))
  = l.
Proof.
  intros Hl Hn.
  set (L := Z.of_nat (List.length l)).
  assert (HL : 1 <= L) by (subst L; destruct l; [contradiction | simpl; lia]).
  pose proof (ceil_div_is_ceiling L n ltac:(lia)) as Hceil.
  unfold ceil_div in Hceil. rewrite <- shifted_floor_is_ceiling in Hceil by lia.
  set (m := (L + n - 1) / n) in *.
  rewrite (flat_map_ext_in _
             (fun i => firstn (Z.to_nat n) (skipn (i * Z.to_nat n) l))).
  - rewrite chunks_firstn. apply firstn_all2. subst L. nia.
  - intros i Hi. apply in_seq in Hi.
    rewrite python_page_in_range by (fold L; nia).
    do 2 f_equal. nia.
Qed.

Lemma dict_keys_set (d : dict) (k : string) (v : value) :
  dict_keys (dict_set d k v)
  = if dict_has d k then dict_keys d else (dict_keys d ++ [k])%list.
Proof.
  unfold dict_has, dict_keys.
  induction d as [|[k' v'] d IH]; simpl; [reflexivity|].
  destruct (String.eqb k' k) eqn:E; simpl; [reflexivity|].
  rewrite IH. now destruct (dict_get d k).
Qed.

Lemma dict_has_set_other (d : dict) (k k' : string) (v : value) :
  String.eqb k k' = false -> dict_has (dict_set d k v) k' = dict_has d k'.
Proof. intros Hk. unfold dict_has. now rewrite dict_get_set_other. Qed.

Lemma dict_has_keys (d : dict) (k : string) :
  dict_has d k = true <-> In k (dict_keys d).
Proof.
  unfold dict_has, dict_keys.
  induction d as [|[k' v'] d IH]; simpl.
  - split; [discriminate | contradiction].
  - destruct (String.eqb k' k) eqn:E.
    + apply String.eqb_eq in E. tauto.
    + apply String.eqb_neq in E. rewrite IH. tauto.
Qed.

(** The three fields the pagination block writes, read back. *)
Lemma paginated_dict_placenames (d : dict) (page count pagination : value) :
  field_of "placenames" (inr (paginated_dict d page count pagination)) = Some page.
Proof.
  unfold field_of, paginated_dict.
  rewrite !dict_get_set_other by reflexivity. apply dict_get_set_same.
Qed.

Lemma paginated_dict_count (d : dict) (page count pagination : value) :
  field_of "count of displayed results"
    (inr (paginated_dict d page count pagination)) = Some count.
Proof.
  unfold field_of, paginated_dict.
  rewrite dict_get_set_other by reflexivity. apply dict_get_set_same.
Qed.

Lemma paginated_dict_pagination (d : dict) (page count pagination : value) :
  field_of "pagination" (inr (paginated_dict d page count pagination))
  = Some pagination.
Proof. unfold field_of, paginated_dict. apply dict_get_set_same. Qed.

Lemma paginated_dict_keys (d : dict) (page count pagination : value) :
  dict_has d "placenames" = true ->
  dict_keys (dict_set (dict_set (dict_set d "placenames" page)
                         "count of displayed results" count)
               "pagination" pagination)
  = (dict_keys d ++ added_key d "count of displayed results"
       ++ added_key d "pagination")%list.
Proof.
  intros Hplaces. unfold added_key.
  rewrite !dict_keys_set, !dict_has_set_other by reflexivity. rewrite Hplaces.
  destruct (dict_has d "count of displayed results"),
    (dict_has d "pagination"); cbn [app];
    rewrite ?app_nil_r, <- ?app_assoc; reflexivity.
Qed.

(** *** The gazetteer search on a list of results *)

(** What the search returns for an object with results, in one equation. *)
Lemma gazetteer_run `{Interpreter}
    (name : string) (year : option Z) (feature_type parent : option string)
    (s n : Z) (w : World) (d : dict) (l : list value) :
  fetched (server w (placename_request name year feature_type parent))
    = inr (VDict d) ->
  dict_get d "placenames" = Some (VList l) -> l <> [] -> n <> 0 ->
  returned (chgis.search_historical_places name year feature_type parent s n) w
  = inr (paginated_dict d (VList (python_page l s n))
           (VStr (str_int (Z.of_nat (List.length (python_page l s n)))))
           (VDict [ ("start", VInt s);
                    ("end", VInt (if 0 <? Z.of_nat (List.length (python_page l s n))
                                  then Z.min (s + Z.of_nat (List.length (python_page l s n)) - 1)
                                         (Z.of_nat (List.length l))
                                  else s));
                    ("total_pages", VInt ((Z.of_nat (List.length l) + n - 1) / n)) ])).
Proof.
  intros Hfetch Hget Hl Hn. unfold returned.
  rewrite search_historical_places_run. cbv zeta. rewrite Hfetch.
  now rewrite (paginate_list d l s n _ Hget Hl Hn).
Qed.

(** When the pagination block raises, the catch-all clause answers. *)
Lemma gazetteer_failure `{Interpreter}
    (name : string) (year : option Z) (feature_type parent : option string)
    (s n : Z) (w : World) (results : value) (f : fault) :
  fetched (server w (placename_request name year feature_type parent))
    = inr results ->
  (forall w', chgis.paginate results s n w' = (inl (Fault f), w')) ->
  returned (chgis.search_historical_places name year feature_type parent s n) w
  = inr (unexpected f).
Proof.
  intros Hfetch Hpaginate. unfold returned.
  rewrite search_historical_places_run. cbv zeta. rewrite Hfetch, Hpaginate.
  reflexivity.
Qed.

(** X1.  Whatever start is, and for any page size other than 0, the results
    [search_historical_places] displays are a run of neighbours of the
    upstream list, in the upstream order: nothing is invented, reordered or
    repeated.  The displayed count is the length of that run, as text; a
    positive page size bounds it; and a start beyond the end of the list
    displays nothing. *)
Theorem gazetteer_page_is_a_window `{Interpreter}
    (name : string) (year : option Z) (feature_type parent : option string)
    (s n : Z) (w : World) (d : dict) (l : list value) :
  fetched (server w (placename_request name year feature_type parent))
    = inr (VDict d) ->
  dict_get d "placenames" = Some (VList l) -> l <> [] -> n <> 0 ->
  exists page before after,
    field_of "placenames"
      (returned (chgis.search_historical_places name year feature_type parent s n) w)
    = Some (VList page)
    /\ l = (before ++ page ++ after)%list
    /\ field_of "count of displayed results"
         (returned (chgis.search_historical_places name year feature_type parent s n) w)
       = Some (VStr (str_int (Z.of_nat (List.length page))))
    /\ (0 < n -> Z.of_nat (List.length page) <= n)
    /\ (Z.of_nat (List.length l) < s -> page = []).
Proof.
  intros Hfetch Hget Hl Hn.
  rewrite (gazetteer_run name year feature_type parent s n w d l Hfetch Hget Hl Hn).
  destruct (python_page_window l s n) as [before [after Hwindow]].
  exists (python_page l s n), before, after.
  split; [apply paginated_dict_placenames|]. split; [exact Hwindow|].
  split; [apply paginated_dict_count|]. split; [apply python_page_length_le|].
  intros Hs. unfold python_page.
  now replace (s <=? Z.of_nat (List.length l)) with false by (symmetry; apply Z.leb_gt; lia).
Qed.

(** Five results, start 0 and page size -2. *)
Lemma gazetteer_page_is_a_window_example :
  exists page before after,
    field_of "placenames"
      (returned
         (chgis.search_historical_places (H := cpython) "long" None None None 0 (-2))
         (answering (inr (ok_response (gazetteer_body (numbered 5))))))
    = Some (VList page)
    /\ numbered 5 = (before ++ page ++ after)%list
    /\ field_of "count of displayed results"
         (returned
            (chgis.search_historical_places (H := cpython) "long" None None None 0 (-2))
            (answering (inr (ok_response (gazetteer_body (numbered 5))))))
       = Some (VStr (str_int (Z.of_nat (List.length page))))
    /\ (0 < -2 -> Z.of_nat (List.length page) <= -2)
    /\ (Z.of_nat (List.length (numbered 5)) < 0 -> page = []).
Proof.
  apply (gazetteer_page_is_a_window (H := cpython) "long" None None None 0 (-2)
           (answering (inr (ok_response (gazetteer_body (numbered 5)))))
           [ ("system", VStr "CHGIS");
             ("count of displayed results", VStr "5");
             ("placenames", VList (numbered 5)) ]
           (numbered 5)).
  - reflexivity.
  - reflexivity.
  - discriminate.
  - lia.
Defined.

(** X2.  With start [s] inside the list ([1 <= s <= L]) and a page size
    [n >= 1], the page has [min(n, L - s + 1)] results; its result number
    [i] (from 0) is the upstream result at position [s - 1 + i]; the
    pagination object's end is [s + k - 1] for a page of [k] results, the
    position of the last result displayed, which lies between [s] and [L];
    and total_pages is the least number of pages of [n] that hold [L]
    results. *)
Theorem gazetteer_page_bounds `{Interpreter}
    (name : string) (year : option Z) (feature_type parent : option string)
    (s n : Z) (w : World) (d : dict) (l : list value) :
  fetched (server w (placename_request name year feature_type parent))
    = inr (VDict d) ->
  dict_get d "placenames" = Some (VList l) ->
  1 <= s <= Z.of_nat (List.length l) -> 1 <= n ->
  let result :=
    returned (chgis.search_historical_places name year feature_type parent s n) w in
  let L := Z.of_nat (List.length l) in
  exists page total_pages,
    field_of "placenames" result = Some (VList page)
    /\ Z.of_nat (List.length page) = Z.min n (L - s + 1)
    /\ (forall i, (i < List.length page)%nat ->
          nth_error page i = nth_error l (Z.to_nat (s - 1) + i))
    /\ field_of "pagination" result
       = Some (VDict [ ("start", VInt s);
                       ("end", VInt (s + Z.of_nat (List.length page) - 1));
                       ("total_pages", VInt total_pages) ])
    /\ s <= s + Z.of_nat (List.length page) - 1 <= L
    /\ n * (total_pages - 1) < L <= n * total_pages.
Proof.
  intros Hfetch Hget Hs Hn. cbv zeta.
  assert (Hl : l <> []) by (intros ->; simpl in Hs; lia).
  rewrite (gazetteer_run name year feature_type parent s n w d l Hfetch Hget Hl)
    by lia.
  assert (Hlen : Z.of_nat (List.length (python_page l s n))
                 = Z.min n (Z.of_nat (List.length l) - s + 1)).
  { rewrite python_page_in_range by lia.
    rewrite length_firstn, length_skipn. lia. }
  pose proof (ceil_div_is_ceiling (Z.of_nat (List.length l)) n ltac:(lia)) as Hceil.
  unfold ceil_div in Hceil. rewrite <- shifted_floor_is_ceiling in Hceil by lia.
  exists (python_page l s n), ((Z.of_nat (List.length l) + n - 1) / n).
  split; [apply paginated_dict_placenames|]. split; [exact Hlen|].
  split.
  { intros i Hi. rewrite python_page_in_range in * by lia.
    rewrite nth_error_firstn, nth_error_skipn.
    rewrite length_firstn in Hi.
    replace (i <? Z.to_nat n)%nat with true by (symmetry; apply Nat.ltb_lt; lia).
    reflexivity. }
  split.
  { rewrite paginated_dict_pagination.
    replace (0 <? Z.of_nat (List.length (python_page l s n))) with true
      by (symmetry; apply Z.ltb_lt; lia).
    now rewrite Z.min_l by lia. }
  split; [lia | exact Hceil].
Qed.

(** The last page of 25 results in pages of 10. *)
Lemma gazetteer_page_bounds_example :
  exists page total_pages,
    field_of "placenames"
      (returned
         (chgis.search_historical_places (H := cpython) "long" None None None 21 10)
         (answering (inr (ok_response (gazetteer_body (numbered 25))))))
    = Some (VList page)
    /\ Z.of_nat (List.length page)
       = Z.min 10 (Z.of_nat (List.length (numbered 25)) - 21 + 1)
    /\ (forall i, (i < List.length page)%nat ->
          nth_error page i = nth_error (numbered 25) (Z.to_nat (21 - 1) + i))
    /\ field_of "pagination"
         (returned
            (chgis.search_historical_places (H := cpython) "long" None None None 21 10)
            (answering (inr (ok_response (gazetteer_body (numbered 25))))))
       = Some (VDict [ ("start", VInt 21);
                       ("end", VInt (21 + Z.of_nat (List.length page) - 1));
                       ("total_pages", VInt total_pages) ])
    /\ 21 <= 21 + Z.of_nat (List.length page) - 1
       <= Z.of_nat (List.length (numbered 25))
    /\ 10 * (total_pages - 1) < Z.of_nat (List.length (numbered 25))
       <= 10 * total_pages.
Proof.
  apply (gazetteer_page_bounds (H := cpython) "long" None None None 21 10
           (answering (inr (ok_response (gazetteer_body (numbered 25)))))
           [ ("system", VStr "CHGIS");
             ("count of displayed results", VStr "25");
             ("placenames", VList (numbered 25)) ]
           (numbered 25)).
  - reflexivity.
  - reflexivity.
  - simpl; lia.
  - lia.
Defined.

(** X3.  Paging through the results loses nothing and repeats nothing: for
    a page size [n >= 1], every call reports the same total_pages, at least
    1, and the pages displayed for start = 1, 1 + n, 1 + 2n, ..., that many
    of them, put end to end, are the upstream list. *)
Theorem gazetteer_pages_cover_results `{Interpreter}
    (name : string) (year : option Z) (feature_type parent : option string)
    (n : Z) (w : World) (d : dict) (l : list value) :
  fetched (server w (placename_request name year feature_type parent))
    = inr (VDict d) ->
  dict_get d "placenames" = Some (VList l) -> l <> [] -> 1 <= n ->
  let page_from (s : Z) :=
    returned (chgis.search_historical_places name year feature_type parent s n) w in
  exists total_pages,
    (forall s, total_pages_of (page_from s) = Some (VInt total_pages))
    /\ 1 <= total_pages
    /\ flat_map (fun i => placenames_of (page_from (1 + Z.of_nat i * n)))
         (seq 0 (Z.to_nat total_pages))
       = l.
Proof.
  intros Hfetch Hget Hl Hn. cbv zeta.
  exists ((Z.of_nat (List.length l) + n - 1) / n).
  split; [|split].
  - intros s.
    rewrite (gazetteer_run name year feature_type parent s n w d l Hfetch Hget Hl)
      by lia.
    unfold total_pages_of. now rewrite paginated_dict_pagination.
  - pose proof (ceil_div_is_ceiling (Z.of_nat (List.length l)) n ltac:(lia)) as Hceil.
    unfold ceil_div in Hceil. rewrite <- shifted_floor_is_ceiling in Hceil by lia.
    destruct l; [contradiction|]. simpl List.length in *. nia.
  - rewrite <- (pages_of_list l n Hl Hn) at 2.
    apply flat_map_ext_in. intros i _.
    rewrite (gazetteer_run name year feature_type parent _ n w d l Hfetch Hget Hl)
      by lia.
    unfold placenames_of. now rewrite paginated_dict_placenames.
Qed.

(** 25 results in pages of 10. *)
Lemma gazetteer_pages_cover_results_example :
  exists total_pages,
    (forall s,
       total_pages_of
         (returned
            (chgis.search_historical_places (H := cpython) "long" None None None s 10)
            (answering (inr (ok_response (gazetteer_body (numbered 25))))))
       = Some (VInt total_pages))
    /\ 1 <= total_pages
    /\ flat_map
         (fun i =>
            placenames_of
              (returned
                 (chgis.search_historical_places (H := cpython) "long" None None None
                    (1 + Z.of_nat i * 10) 10)
                 (answering (inr (ok_response (gazetteer_body (numbered 25)))))))
         (seq 0 (Z.to_nat total_pages))
       = numbered 25.
Proof.
  apply (gazetteer_pages_cover_results (H := cpython) "long" None None None 10
           (answering (inr (ok_response (gazetteer_body (numbered 25)))))
           [ ("system", VStr "CHGIS");
             ("count of displayed results", VStr "25");
             ("placenames", VList (numbered 25)) ]
           (numbered 25)).
  - reflexivity.
  - reflexivity.
  - discriminate.
  - lia.
Defined.

(** X4.  Pagination keeps the fields of the upstream object where they are:
    the keys of the result are the keys of the body in their order, followed
    by count of displayed results and by pagination when the body did not
    have them; no key is dropped, and none appears twice. *)
Theorem gazetteer_keeps_fields_in_order `{Interpreter}
    (name : string) (year : option Z) (feature_type parent : option string)
    (s n : Z) (w : World) (d : dict) (l : list value) :
  fetched (server w (placename_request name year feature_type parent))
    = inr (VDict d) ->
  dict_get d "placenames" = Some (VList l) -> l <> [] -> n <> 0 ->
  exists d',
    returned (chgis.search_historical_places name year feature_type parent s n) w
    = inr (VDict d')
    /\ dict_keys d'
       = (dict_keys d ++ added_key d "count of displayed results"
            ++ added_key d "pagination")%list
    /\ (NoDup (dict_keys d) -> NoDup (dict_keys d')).
Proof.
  intros Hfetch Hget Hl Hn.
  rewrite (gazetteer_run name year feature_type parent s n w d l Hfetch Hget Hl Hn).
  unfold paginated_dict. eexists. split; [reflexivity|].
  assert (Hplaces : dict_has d "placenames" = true)
    by (unfold dict_has; now rewrite Hget).
  split; [now apply paginated_dict_keys|].
  intros Hnodup. rewrite paginated_dict_keys by assumption. unfold added_key.
  destruct (dict_has d "count of displayed results") eqn:Hcount,
    (dict_has d "pagination") eqn:Hpag; cbn [app]; rewrite ?app_nil_r; auto.
  all: apply NoDup_app; auto.
  all: try (repeat constructor; simpl; intuition discriminate).
  all: intros k Hin Hk; apply dict_has_keys in Hin;
       simpl in Hk; intuition (subst; congruence).
Qed.

(** A body with three fields, the count among them: pagination goes last. *)
Lemma gazetteer_keeps_fields_in_order_example :
  exists d',
    returned
      (chgis.search_historical_places (H := cpython) "long" None None None 2 2)
      (answering (inr (ok_response (gazetteer_body (numbered 5)))))
    = inr (VDict d')
    /\ dict_keys d'
       = (dict_keys [ ("system", VStr "CHGIS");
                      ("count of displayed results", VStr "5");
                      ("placenames", VList (numbered 5)) ]
            ++ added_key [ ("system", VStr "CHGIS");
                           ("count of displayed results", VStr "5");
                           ("placenames", VList (numbered 5)) ]
                 "count of displayed results"
            ++ added_key [ ("system", VStr "CHGIS");
                           ("count of displayed results", VStr "5");
                           ("placenames", VList (numbered 5)) ]
                 "pagination")%list
    /\ (NoDup (dict_keys [ ("system", VStr "CHGIS");
                           ("count of displayed results", VStr "5");
                           ("placenames", VList (numbered 5)) ])
        -> NoDup (dict_keys d')).
Proof.
  apply (gazetteer_keeps_fields_in_order (H := cpython) "long" None None None 2 2
           (answering (inr (ok_response (gazetteer_body (numbered 5)))))
           [ ("system", VStr "CHGIS");
             ("count of displayed results", VStr "5");
             ("placenames", VList (numbered 5)) ]
           (numbered 5)).
  - reflexivity.
  - reflexivity.
  - discriminate.
  - lia.
Defined.

(** X5.  Start 0 is not the first page: the slice then begins at position
    -1, the last one.  For a page size [n >= 1] the search displays the last
    result alone when the list has fewer than [n] results and nothing
    otherwise, and the pagination object says start 0, end 0. *)
Theorem gazetteer_start_zero `{Interpreter}
    (name : string) (year : option Z) (feature_type parent : option string)
    (n : Z) (w : World) (d : dict) (l : list value) :
  fetched (server w (placename_request name year feature_type parent))
    = inr (VDict d) ->
  dict_get d "placenames" = Some (VList l) -> l <> [] -> 1 <= n ->
  let result :=
    returned (chgis.search_historical_places name year feature_type parent 0 n) w in
  field_of "placenames" result
  = Some (VList (if Z.of_nat (List.length l) <? n then [last l VNone] else []))
  /\ exists total_pages,
       field_of "pagination" result
       = Some (VDict [ ("start", VInt 0); ("end", VInt 0);
                       ("total_pages", VInt total_pages) ]).
Proof.
  intros Hfetch Hget Hl Hn. cbv zeta.
  rewrite (gazetteer_run name year feature_type parent 0 n w d l Hfetch Hget Hl)
    by lia.
  rewrite (python_page_from_zero l n VNone Hl Hn).
  split; [apply paginated_dict_placenames|].
  eexists. rewrite paginated_dict_pagination.
  destruct (Z.of_nat (List.length l) <? n); cbn [List.length Z.of_nat Z.ltb Z.compare].
  - replace (Z.min _ _) with 0 by (destruct l; [contradiction | simpl List.length; lia]).
    reflexivity.
  - reflexivity.
Qed.

(** Five results, start 0, page size 10: the fifth alone. *)
Lemma gazetteer_start_zero_example :
  field_of "placenames"
    (returned
       (chgis.search_historical_places (H := cpython) "long" None None None 0 10)
       (answering (inr (ok_response (gazetteer_body (numbered 5))))))
  = Some (VList (if Z.of_nat (List.length (numbered 5)) <? 10
                 then [last (numbered 5) VNone] else []))
  /\ exists total_pages,
       field_of "pagination"
         (returned
            (chgis.search_historical_places (H := cpython) "long" None None None 0 10)
            (answering (inr (ok_response (gazetteer_body (numbered 5))))))
       = Some (VDict [ ("start", VInt 0); ("end", VInt 0);
                       ("total_pages", VInt total_pages) ]).
Proof.
  apply (gazetteer_start_zero (H := cpython) "long" None None None 10
           (answering (inr (ok_response (gazetteer_body (numbered 5)))))
           [ ("system", VStr "CHGIS");
             ("count of displayed results", VStr "5");
             ("placenames", VList (numbered 5)) ]
           (numbered 5)).
  - reflexivity.
  - reflexivity.
  - discriminate.
  - lia.
Defined.

(** *** The gazetteer search on other bodies *)

(** X6.  A placenames entry that is there but falsy (null, false, 0, an
    empty string, an empty object, an empty list) fails the test guarding
    the pagination block: the body is returned as it is, for every start and
    page size. *)
Theorem gazetteer_falsy_placenames_unchanged `{Interpreter}
    (name : string) (year : option Z) (feature_type parent : option string)
    (s n : Z) (w : World) (d : dict) (v : value) :
  fetched (server w (placename_request name year feature_type parent))
    = inr (VDict d) ->
  dict_get d "placenames" = Some v -> truthy v = false ->
  returned (chgis.search_historical_places name year feature_type parent s n) w
  = inr (VDict d).
Proof.
  intros Hfetch Hget Hv. unfold returned.
  rewrite search_historical_places_run. cbv zeta. rewrite Hfetch.
  rewrite paginate_nothing; [reflexivity|].
  right. exists v. now split.
Qed.

(** A body whose placenames is null. *)
Lemma gazetteer_null_placenames :
  returned
    (chgis.search_historical_places (H := cpython) "long" None None None 1 10)
    (answering (inr (ok_response
       (VDict [("system", VStr "CHGIS"); ("placenames", VNone)]))))
  = inr (VDict [("system", VStr "CHGIS"); ("placenames", VNone)]).
Proof.
  apply (gazetteer_falsy_placenames_unchanged (H := cpython) "long" None None None
           1 10
           (answering (inr (ok_response
              (VDict [("system", VStr "CHGIS"); ("placenames", VNone)]))))
           [("system", VStr "CHGIS"); ("placenames", VNone)] VNone).
  - reflexivity.
  - reflexivity.
  - reflexivity.
Defined.

(** X7.  A placenames entry that is truthy but has no length (true, a
    number other than zero) passes the guard and makes [len] raise: the
    search returns the error object of the catch-all clause, and the body is
    lost. *)
Theorem gazetteer_unsized_placenames_fail `{Interpreter}
    (name : string) (year : option Z) (feature_type parent : option string)
    (s n : Z) (w : World) (d : dict) (v : value) :
  fetched (server w (placename_request name year feature_type parent))
    = inr (VDict d) ->
  dict_get d "placenames" = Some v -> truthy v = true -> sized v = false ->
  returned (chgis.search_historical_places name year feature_type parent s n) w
  = inr (unexpected (NoLen v)).
Proof.
  intros Hfetch Hget Hv Hsized.
  apply (gazetteer_failure name year feature_type parent s n w (VDict d) _ Hfetch).
  intros w'. unfold chgis.paginate.
  cbv beta iota zeta delta [bind ret raise py_contains py_getitem dict_has].
  rewrite Hget. cbv beta iota zeta. rewrite Hv.
  destruct v; try discriminate Hsized; reflexivity.
Qed.

(** A body whose placenames is the number 3. *)
Lemma gazetteer_numeric_placenames :
  returned
    (chgis.search_historical_places (H := cpython) "long" None None None 1 10)
    (answering (inr (ok_response (VDict [("placenames", VInt 3)]))))
  = inr (error_dict
           "An unexpected error occurred: object of type 'int' has no len()").
Proof.
  apply (gazetteer_unsized_placenames_fail (H := cpython) "long" None None None
           1 10 (answering (inr (ok_response (VDict [("placenames", VInt 3)]))))
           [("placenames", VInt 3)] (VInt 3)).
  - reflexivity.
  - reflexivity.
  - reflexivity.
  - reflexivity.
Defined.

(** X8.  With page size 0 and at least one upstream result, the division
    that counts the pages raises for every start, and the search returns the
    error object of the catch-all clause instead of any result. *)
Theorem gazetteer_zero_page_size_fails `{Interpreter}
    (name : string) (year : option Z) (feature_type parent : option string)
    (s : Z) (w : World) (d : dict) (l : list value) :
  fetched (server w (placename_request name year feature_type parent))
    = inr (VDict d) ->
  dict_get d "placenames" = Some (VList l) -> l <> [] ->
  returned (chgis.search_historical_places name year feature_type parent s 0) w
  = inr (unexpected DivisionByZero).
Proof.
  intros Hfetch Hget Hl.
  apply (gazetteer_failure name year feature_type parent s 0 w (VDict d) _ Hfetch).
  intros w'. unfold chgis.paginate. msimpl. rewrite Hget. msimpl.
  destruct l as [|x l]; [contradiction|]. msimpl.
  destruct (s <=? Z.of_nat (List.length (x :: l))); msimpl;
    case_cond; msimpl; reflexivity.
Qed.

(** Three results, page size 0. *)
Lemma gazetteer_zero_page_size_example :
  returned
    (chgis.search_historical_places (H := cpython) "long" None None None 1 0)
    (answering (inr (ok_response (gazetteer_body (numbered 3)))))
  = inr (error_dict
           "An unexpected error occurred: integer division or modulo by zero").
Proof.
  apply (gazetteer_zero_page_size_fails (H := cpython) "long" None None None 1
           (answering (inr (ok_response (gazetteer_body (numbered 3)))))
           [ ("system", VStr "CHGIS");
             ("count of displayed results", VStr "3");
             ("placenames", VList (numbered 3)) ]
           (numbered 3)).
  - reflexivity.
  - reflexivity.
  - discriminate.
Defined.

(** X9.  When the decoded body is not an object, the membership test of
    the guard decides: null, a boolean or a number is not a container, and
    the search returns an error object; a string that contains placenames,
    or a list with the element placenames, passes the test and fails at the
    subscript, again an error object; any other string or list is returned
    as it is. *)
Theorem gazetteer_bodies_that_are_not_objects `{Interpreter}
    (name : string) (year : option Z) (feature_type parent : option string)
    (s n : Z) (w : World) (body : value) :
  fetched (server w (placename_request name year feature_type parent))
    = inr body ->
  (forall d, body <> VDict d) ->
  returned (chgis.search_historical_places name year feature_type parent s n) w
  = inr match body with
        | VStr text =>
            if str_contains "placenames" text then unexpected (BadSubscript body)
            else body
        | VList items =>
            if existsb (is_text "placenames") items
            then unexpected (BadSubscript body)
            else body
        | _ => unexpected (NotIterable body)
        end.
Proof.
  intros Hfetch Hbody. unfold returned.
  rewrite search_historical_places_run. cbv zeta. rewrite Hfetch.
  unfold chgis.paginate, is_text.
  destruct body as [| | | | text |items|d]; msimpl; try reflexivity.
  - destruct (str_contains "placenames" text); reflexivity.
  - destruct (existsb _ items); reflexivity.
  - now contradiction (Hbody d).
Qed.

(** A successful response whose body is null. *)
Lemma gazetteer_null_body :
  returned
    (chgis.search_historical_places (H := cpython) "long" None None None 1 10)
    (answering (inr (ok_response VNone)))
  = inr (error_dict
           "An unexpected error occurred: argument of type 'NoneType' is not iterable").
Proof.
  apply (gazetteer_bodies_that_are_not_objects (H := cpython) "long" None None None
           1 10 (answering (inr (ok_response VNone))) VNone).
  - reflexivity.
  - discriminate.
Defined.

(** *** Failures other than transport in the searches *)

Lemma two_tier_failure `{Interpreter} (tool : IO value) (w : World) (req : Request) :
  (forall e, fetched (server w req) = inl e ->
     returned tool w = inr (error_dict (two_tier_message e))) ->
  reports_unexpected tool w req.
Proof.
  intros Hfail. split.
  - intros resp Hserver Hstatus.
    apply (Hfail (HTTPStatusError (status_text resp) (status_code resp))).
    unfold fetched. now rewrite Hserver, Hstatus.
  - intros resp m Hserver Hstatus Hdecoded.
    apply (Hfail (ValueError m)).
    unfold fetched. now rewrite Hserver, Hstatus.
Qed.

(** X10.  The searches have no clause of their own for an HTTP error status
    or for a body that does not decode: the location search (both copies),
    the place-person search and the gazetteer search all answer a response
    whose status is not 2xx with An unexpected error occurred, a colon, a
    space and the text of the status exception, and a 2xx response whose body
    fails to decode with the same words and the decoder's message.  The body
    of a response with an error status is never looked at. *)
Theorem searches_report_status_and_decoding_alike `{Interpreter} :
  (forall name accurate startTime endTime start list_length w,
     reports_unexpected
       (cbdb_addr.search_places_under_location name accurate startTime endTime
          start list_length) w
       (place_list_request name accurate startTime endTime start list_length))
  /\ (forall name accurate startTime endTime start list_length w,
        reports_unexpected
          (cbdb_addr_person.search_places_under_location name accurate startTime
             endTime start list_length) w
          (place_list_request name accurate startTime endTime start list_length))
  /\ (forall people_place place_type use_date date_type date_start_time
             date_end_time dyn_start dyn_end use_xy start list_length w,
        reports_unexpected
          (cbdb_addr_person.query_people_by_place people_place place_type
             use_date date_type date_start_time date_end_time dyn_start dyn_end
             use_xy start list_length) w
          (query_place_request people_place place_type use_date date_type
             date_start_time date_end_time dyn_start dyn_end use_xy start
             list_length))
  /\ (forall name year feature_type parent start list_length w,
        reports_unexpected
          (chgis.search_historical_places name year feature_type parent start
             list_length) w
          (placename_request name year feature_type parent)).
Proof.
  split; [|split; [|split]]; intros; apply two_tier_failure;
    intros e Hfetch; unfold returned.
  - rewrite search_places_under_location_run. cbn [fst]. now rewrite Hfetch.
  - rewrite search_places_under_location_copy_run. cbn [fst]. now rewrite Hfetch.
  - rewrite query_people_by_place_run. cbn [fst]. now rewrite Hfetch.
  - rewrite search_historical_places_run. cbv zeta. now rewrite Hfetch.
Qed.

(** A 503 on the place-person search. *)
Lemma place_person_search_503 :
  returned
    (cbdb_addr_person.query_people_by_place (H := cpython) [100513] ["BF"] 0 None
       None None None None 0 1 50)
    (answering (inr (status_response 503)))
  = inr (error_dict "An unexpected error occurred: Client error").
Proof.
  exact (proj1 (proj1 (proj2 (proj2
           (searches_report_status_and_decoding_alike (H := cpython))))
           [100513] ["BF"] 0 None None None None None 0 1 50
           (answering (inr (status_response 503))))
           (status_response 503) eq_refl eq_refl).
Defined.

(** *** The place-detail lookup *)

(** X11.  What [get_place_details] returns for each successful body: an
    object as it is; null, a boolean or a number is not a container, so the
    test on the source note raises and an error object comes back; a string
    that contains source note, or a list with the element source note,
    passes the membership test and fails at the subscript, again an error
    object; any other string or list is returned as it is. *)
Theorem place_detail_bodies_that_are_not_objects `{Interpreter}
    (place_id : string) (w : World) (body : value) :
  fetched (server w (place_detail_request place_id)) = inr body ->
  returned (chgis.get_place_details place_id) w
  = inr match body with
        | VDict _ => body
        | VStr s =>
            if str_contains "source note" s then unexpected (BadSubscript body)
            else body
        | VList items =>
            if existsb (is_text "source note") items
            then unexpected (BadSubscript body)
            else body
        | _ => unexpected (NotIterable body)
        end.
Proof.
  intros Hfetch. unfold returned, chgis.get_place_details, chgis.normalize_place_id.
  cbv zeta. rewrite fetch_then.
  replace (if negb (String.prefix "hvd_" place_id)
           then "hvd_" ++ place_id else place_id)
    with (if String.prefix "hvd_" place_id then place_id else "hvd_" ++ place_id)
    by (destruct (String.prefix "hvd_" place_id); reflexivity).
  fold (place_detail_request place_id). rewrite Hfetch.
  unfold try_except.
  match goal with |- context [handle ?c] => set (clauses := c) end.
  assert (Hcaught : forall f w',
            handle clauses (Fault f) w' = (inr (unexpected f), w'))
    by (intros f w'; subst clauses; now rewrite handle_detail).
  clearbody clauses.
  destruct body as [| | | | s |l|d]; msimpl; rewrite ?Hcaught; try reflexivity.
  - destruct (str_contains "source note" s); msimpl; now rewrite ?Hcaught.
  - unfold is_text.
    destruct (existsb _ l); msimpl; now rewrite ?Hcaught.
  - destruct (dict_get d "source note"); reflexivity.
Qed.

(** A body that is a list of field names. *)
Lemma place_detail_list_body :
  returned (chgis.get_place_details (H := cpython) "80547")
    (answering (inr (ok_response (VList [VStr "sys_id"; VStr "source note"]))))
  = inr (error_dict
           "An unexpected error occurred: list indices must be integers or slices, not str").
Proof.
  exact (place_detail_bodies_that_are_not_objects (H := cpython) "80547"
           (answering (inr (ok_response (VList [VStr "sys_id"; VStr "source note"]))))
           (VList [VStr "sys_id"; VStr "source note"]) eq_refl).
Defined.

Lemma normalize_place_id_prefixed (place_id : string) :
  String.prefix "hvd_" ("hvd_" ++ place_id) = true.
Proof.
  cbn. repeat (destruct (ascii_dec _ _); [|congruence]). now destruct place_id.
Qed.

(** X12.  The prefix is optional for the caller: looking up an identifier
    without hvd_ and looking up the same identifier with hvd_ in front are
    the same call, with the same request and the same result; so is looking
    up an identifier and its normal form.  The normal form always starts with
    hvd_, and it ends with the identifier as given: the lookup adds the
    prefix or nothing, and changes no character. *)
Theorem place_detail_prefix_is_optional `{Interpreter} :
  (forall place_id w,
     String.prefix "hvd_" place_id = false ->
     chgis.get_place_details ("hvd_" ++ place_id) w
     = chgis.get_place_details place_id w)
  /\ (forall place_id w,
        chgis.get_place_details (chgis.normalize_place_id place_id) w
        = chgis.get_place_details place_id w)
  /\ (forall place_id,
        String.prefix "hvd_" (chgis.normalize_place_id place_id) = true
        /\ exists front,
             chgis.normalize_place_id place_id = front ++ place_id
             /\ (front = EmptyString \/ front = "hvd_")).
Proof.
  assert (Hsame : forall place_id,
            chgis.normalize_place_id (chgis.normalize_place_id place_id)
            = chgis.normalize_place_id place_id).
  { intros place_id. unfold chgis.normalize_place_id.
    destruct (String.prefix "hvd_" place_id) eqn:E; cbn [negb].
    - now rewrite E.
    - now rewrite normalize_place_id_prefixed. }
  split; [|split].
  - intros place_id w Hprefix.
    unfold chgis.get_place_details. cbv zeta.
    replace (chgis.normalize_place_id ("hvd_" ++ place_id))
      with (chgis.normalize_place_id place_id); [reflexivity|].
    unfold chgis.normalize_place_id.
    now rewrite Hprefix, normalize_place_id_prefixed.
  - intros place_id w. unfold chgis.get_place_details. cbv zeta.
    now rewrite Hsame.
  - intros place_id. unfold chgis.normalize_place_id.
    destruct (String.prefix "hvd_" place_id) eqn:E; cbn [negb].
    + split; [exact E|]. exists EmptyString. split; [reflexivity | now left].
    + split; [apply normalize_place_id_prefixed|].
      exists "hvd_". split; [reflexivity | now right].
Qed.
